(** * mediConnect: the resilient API client wrapper

    A shallow embedding of [services/api.js] (the axios instance with its
    request and response interceptors) and of [hooks/storage.js] (the
    persisted session store), followed by the properties of the wrapper:
    the retry bound, header injection, the 401 side effects and the shape
    of the rejection values. *)

From Stdlib Require Import ZArith Lia Ascii.
From stdpp Require Import base option strings pretty gmap list.

#[local] Set Warnings "-register-all".
Local Open Scope string_scope.
Local Open Scope list_scope.

(** ** JavaScript values

    Response bodies and the fields of rejection objects are untyped on the
    JavaScript side.  Numbers are integers here: no claim depends on a
    fractional status or body. *)
Module Js.

Inductive value : Type :=
| Undefined
| Null
| Bool (b : bool)
| Num (n : Z)
| Str (s : string)
| Arr (items : list value)
| Obj (props : list (string * value)).

(** [ToBoolean]: [undefined], [null], [false], [0] and the empty string are
    falsy, every array and every object is truthy. *)
Definition truthy (v : value) : bool :=
  match v with
  | Undefined | Null => false
  | Bool b => b
  | Num n => negb (n =? 0)%Z
  | Str s => match s with EmptyString => false | String _ _ => true end
  | Arr _ | Obj _ => true
  end.

(** [a || b] *)
Definition or_else (a b : value) : value :=
  if truthy a then a else b.

(** Own property of an object literal; the keys of an object are distinct,
    the first binding of the list is the property. *)
Fixpoint own_prop (key : string) (props : list (string * value)) : value :=
  match props with
  | [] => Undefined
  | (k, v) :: rest => if String.eqb k key then v else own_prop key rest
  end.

(** [v?.key] for a key that is not a built-in member of strings, numbers,
    booleans or arrays (such as [message]): [undefined] on [null] and
    [undefined] by the optional chaining, [undefined] on the other
    primitives and on arrays by the missing property. *)
Definition opt_member (v : value) (key : string) : value :=
  match v with
  | Obj props => own_prop key props
  | _ => Undefined
  end.

(** [typeof v] *)
Definition typeof (v : value) : string :=
  match v with
  | Undefined => "undefined"
  | Null => "object"
  | Bool _ => "boolean"
  | Num _ => "number"
  | Str _ => "string"
  | Arr _ | Obj _ => "object"
  end.

(** A nullable string read as a JavaScript value. *)
Definition of_nullable (o : option string) : value :=
  match o with
  | Some s => Str s
  | None => Undefined
  end.

End Js.

(** ** hooks/storage.js

    [localStorage] is a map from string keys to string values;
    [getItem] answers [null] ([None]) on a missing key. *)
Module Storage.

Definition getItem (key : string) (ls : gmap string string) : option string :=
  ls !! key.

Definition setItem (key value : string) (ls : gmap string string)
  : gmap string string :=
  <[key := value]> ls.

Definition removeItem (key : string) (ls : gmap string string)
  : gmap string string :=
  delete key ls.

Definition getToken (ls : gmap string string) : option string :=
  getItem "mediconnect_token" ls.

Definition setToken (token : string) (ls : gmap string string)
  : gmap string string :=
  setItem "mediconnect_token" token ls.

Definition removeToken (ls : gmap string string) : gmap string string :=
  removeItem "mediconnect_token" ls.

Definition getUserRole (ls : gmap string string) : option string :=
  getItem "mediconnect_role" ls.

Definition setUserRole (role : string) (ls : gmap string string)
  : gmap string string :=
  setItem "mediconnect_role" role ls.

Definition removeUserRole (ls : gmap string string) : gmap string string :=
  removeItem "mediconnect_role" ls.

(** The user data is kept as its JSON text; [getUserDataRaw] is the entry
    before [JSON.parse] and [setUserData] takes the text that
    [JSON.stringify] yields. *)
Definition getUserDataRaw (ls : gmap string string) : option string :=
  getItem "mediconnect_user" ls.

Definition setUserData (json : string) (ls : gmap string string)
  : gmap string string :=
  setItem "mediconnect_user" json ls.

Definition removeUserData (ls : gmap string string) : gmap string string :=
  removeItem "mediconnect_user" ls.

Definition clearStorage (ls : gmap string string) : gmap string string :=
  removeUserData (removeUserRole (removeToken ls)).

End Storage.

(** ** Data of services/api.js *)

(** The request config.  [__isRetry] is the flag the response interceptor
    stamps on a config before it re-issues it. *)
Module Config.
Record t : Type := mk {
  url : string;
  method : string;
  baseURL : option string;
  headers : gmap string string;
  data : Js.value;
  timeout : option Z;
  __isRetry : bool
}.

Definition set_headers (h : gmap string string) (c : t) : t :=
  mk (url c) (method c) (baseURL c) h (data c) (timeout c) (__isRetry c).

Definition set___isRetry (b : bool) (c : t) : t :=
  mk (url c) (method c) (baseURL c) (headers c) (data c) (timeout c) b.
End Config.

Module Response.
Record t : Type := mk {
  status : Z;
  data : Js.value;
  config : Config.t
}.
End Response.

(** What a rejected attempt carries: axios attaches the dispatched config,
    and the response when the server answered. *)
Module AxiosError.
Record t : Type := mk {
  message : string;
  code : option string;
  config : option Config.t;
  response : option Response.t
}.
End AxiosError.

(** The object literal the response interceptor rejects with.  An absent
    key is [None]; [code: null] is [Some Js.Null]. *)
Module Normalized.
Record t : Type := mk {
  status : Z;
  message : Js.value;
  data : option Js.value;
  code : option Js.value;
  originalError : option AxiosError.t
}.
End Normalized.

Inductive Level : Type := LogWarn | LogError.

(** Observable effects, newest first in the log. *)
Inductive Event : Type :=
| Dispatch (config : Config.t)
| SetTimeout (ms : Z)
| Navigate (href : string)
| Console (level : Level) (text : string).

(** Instance defaults of [axios.create]; [AuthContext] also writes the
    default headers. *)
Module Defaults.
Record t : Type := mk {
  baseURL : string;
  headers : gmap string string;
  timeout : Z
}.
End Defaults.

Record World : Type := mkWorld {
  localStorage : gmap string string;
  pathname : string;
  defaults : Defaults.t;
  events : list Event
}.

(** How one attempt ends at the transport: the server answers with a
    status and a body, or no response is ever received. *)
Inductive Outcome : Type :=
| Answered (status : Z) (body : Js.value)
| NoResponse (message : string) (code : option string).

Inductive Settled : Type :=
| Resolved (response : Response.t)
| Rejected (reason : Normalized.t).

(** ** Effects

    The code runs on one thread against ambient state ([localStorage],
    [window.location], the instance defaults) and leaves observable
    effects; a computation is a function of the world. *)
Definition M (A : Type) : Type := World -> A * World.

#[global] Instance M_ret : MRet M := fun A a w => (a, w).

#[global] Instance M_bind : MBind M :=
  fun A B f m w => let (a, w') := m w in f a w'.

Definition log (e : Event) (w : World) : World :=
  mkWorld (localStorage w) (pathname w) (defaults w) (e :: events w).

Definition emit (e : Event) : M unit := fun w => (tt, log e w).

Definition readStorage : M (gmap string string) := fun w =>
  (localStorage w, w).

Definition updateStorage (f : gmap string string -> gmap string string)
  : M unit := fun w =>
  (tt, mkWorld (f (localStorage w)) (pathname w) (defaults w) (events w)).

Definition readPathname : M string := fun w => (pathname w, w).

Definition readDefaults : M Defaults.t := fun w => (defaults w, w).

(** The configs handed to the transport, newest first. *)
Fixpoint dispatched (evs : list Event) : list Config.t :=
  match evs with
  | [] => []
  | Dispatch c :: rest => c :: dispatched rest
  | _ :: rest => dispatched rest
  end.

Definition attempts (w : World) : nat := length (dispatched (events w)).

(** [window.location.href = ...] assignments, newest first. *)
Fixpoint navigations (evs : list Event) : list string :=
  match evs with
  | [] => []
  | Navigate href :: rest => href :: navigations rest
  | _ :: rest => navigations rest
  end.

(** ** axios: the part of the library the wrapper relies on *)

(** [mergeConfig(this.defaults, config)]: the call's own fields win, the
    instance defaults fill what the call leaves out; custom fields such as
    [__isRetry] are carried over. *)
Definition mergeConfig (d : Defaults.t) (c : Config.t) : Config.t :=
  Config.mk (Config.url c) (Config.method c)
    (Some (default (Defaults.baseURL d) (Config.baseURL c)))
    (Config.headers c ∪ Defaults.headers d)
    (Config.data c)
    (Some (default (Defaults.timeout d) (Config.timeout c)))
    (Config.__isRetry c).

(** The default [validateStatus]: the instance does not override it. *)
Definition validateStatus (status : Z) : bool :=
  ((200 <=? status) && (status <? 300))%Z.

(** The instance created by [axios.create]. *)
Definition initialDefaults (VITE_API_URL : option string) : Defaults.t :=
  Defaults.mk
    (match VITE_API_URL with
     | Some u => if Js.truthy (Js.Str u) then u else "http://localhost:5000/api"
     | None => "http://localhost:5000/api"
     end)
    {[ "Content-Type" := "application/json" ]}
    10000.

(** ** services/api.js *)

(** Request interceptor, fulfilled side. *)
Definition requestFulfilled (config : Config.t) : M Config.t :=
  ls ← readStorage;
  let config :=
    match Storage.getToken ls with
    | Some token =>
        if Js.truthy (Js.Str token)
        then Config.set_headers
               (<["Authorization" := "Bearer " +:+ token]>
                  (Config.headers config)) config
        else config
    | None => config
    end in
  let language :=
    match Storage.getItem "mediconnect_language" ls with
    | Some l => if Js.truthy (Js.Str l) then l else "en"
    | None => "en"
    end in
  mret (Config.set_headers
          (<["Accept-Language" := language]> (Config.headers config)) config).

(** Request interceptor, rejected side: [Promise.reject(error)], the error
    goes on as it came.  The chain starts from a resolved promise and this
    is the only request interceptor, so [api] below never takes this side;
    an error rejected here would skip the dispatch and reach the rejected
    side of the response interceptor. *)
Definition requestRejected (error : AxiosError.t) : AxiosError.t := error.

(** Response interceptor, fulfilled side. *)
Definition responseFulfilled (response : Response.t) : M (option Settled) :=
  mret (Some (Resolved response)).

(** [!response && config && !config.__isRetry] *)
Definition shouldRetry (error : AxiosError.t) : option Config.t :=
  match AxiosError.response error, AxiosError.config error with
  | None, Some config => if Config.__isRetry config then None else Some config
  | _, _ => None
  end.

(** The [switch (response.status)] of the rejected side. *)
Definition onStatus (response : Response.t) : M unit :=
  let status := Response.status response in
  if (status =? 401)%Z then
    _ ← updateStorage Storage.clearStorage;
    p ← readPathname;
    if bool_decide (p ≠ "/login") then emit (Navigate "/login") else mret tt
  else if (status =? 403)%Z then emit (Console LogError "Access forbidden:")
  else if (status =? 404)%Z then emit (Console LogError "Resource not found:")
  else if (status =? 500)%Z then emit (Console LogError "Server error:")
  else emit (Console LogError "API Error:").

(** Response interceptor, rejected side.  [api] is the instance itself,
    called for the retry. *)
Definition responseRejected (api : Config.t -> M (option Settled))
    (error : AxiosError.t) : M (option Settled) :=
  match shouldRetry error with
  | Some config =>
      let config := Config.set___isRetry true config in
      _ ← emit (Console LogWarn
                  "Network error detected, retrying request once...");
      _ ← emit (SetTimeout 1000);
      api config
  | None =>
      match AxiosError.response error with
      | Some response =>
          _ ← onStatus response;
          mret (Some (Rejected
            (Normalized.mk
               (Response.status response)
               (Js.or_else (Js.opt_member (Response.data response) "message")
                           (Js.Str "An error occurred"))
               (Some (Response.data response))
               None
               None)))
      | None =>
          _ ← emit (Console LogError "Network Error (no response):");
          mret (Some (Rejected
            (Normalized.mk
               0
               (Js.or_else (Js.Str (AxiosError.message error))
                  (Js.Str "Network error. Please check your connection."))
               None
               (Some (Js.or_else (Js.of_nullable (AxiosError.code error))
                                 Js.Null))
               (Some error))))
      end
  end.

Section Instance.

(** The network and the server: what the [n]-th attempt ends in when it
    carries [config]. *)
Variable adapter : nat -> Config.t -> Outcome.

(** [dispatchRequest] and [settle]: the attempt resolves with the response
    on a status that [validateStatus] accepts and rejects otherwise. *)
Definition dispatchRequest (config : Config.t)
  : M (Response.t + AxiosError.t) :=
  fun w =>
    let (_, w') := emit (Dispatch config) w in
    match adapter (attempts w) config with
    | Answered status body =>
        let response := Response.mk status body config in
        if validateStatus status then (inl response, w')
        else (inr (AxiosError.mk "Request failed"
                     (Some (if (status <? 500)%Z then "ERR_BAD_REQUEST"
                            else "ERR_BAD_RESPONSE"))
                     (Some config) (Some response)), w')
    | NoResponse message code =>
        (inr (AxiosError.mk message code (Some config) None), w')
    end.

(** [api(config)]: merge with the defaults, run the request interceptor,
    dispatch, run the response interceptor.  The rejected side calls [api]
    again; [fuel] bounds the nesting of calls and [None] is an exhausted
    bound. *)
Fixpoint api (fuel : nat) (config : Config.t) : M (option Settled) :=
  match fuel with
  | O => mret None
  | S fuel' =>
      d ← readDefaults;
      config ← requestFulfilled (mergeConfig d config);
      attempt ← dispatchRequest config;
      match attempt with
      | inl response => responseFulfilled response
      | inr error => responseRejected (api fuel') error
      end
  end.

End Instance.

(** ** Reading a run *)

(** The config an [api(config)] call hands to the transport in world [w]:
    merged with the defaults, then through the request interceptor. *)
Definition outgoing (w : World) (config : Config.t) : Config.t :=
  fst (requestFulfilled (mergeConfig (defaults w) config) w).

(** The world in which the retry starts: the failed attempt, the warning
    and the one-second timer are behind. *)
Definition afterDelay (sent : Config.t) (w : World) : World :=
  log (SetTimeout 1000)
    (log (Console LogWarn "Network error detected, retrying request once...")
       (log (Dispatch sent) w)).

(** The rejection of the [if (response)] branch. *)
Definition httpRejection (response : Response.t) : Normalized.t :=
  Normalized.mk
    (Response.status response)
    (Js.or_else (Js.opt_member (Response.data response) "message")
                (Js.Str "An error occurred"))
    (Some (Response.data response))
    None
    None.

(** The rejection of the [else] branch. *)
Definition networkRejection (error : AxiosError.t) : Normalized.t :=
  Normalized.mk
    0
    (Js.or_else (Js.Str (AxiosError.message error))
       (Js.Str "Network error. Please check your connection."))
    None
    (Some (Js.or_else (Js.of_nullable (AxiosError.code error)) Js.Null))
    (Some error).

(** How an attempt that is not followed by a retry settles the call. *)
Definition settlement (sent : Config.t) (o : Outcome) : Settled :=
  match o with
  | Answered status body =>
      if validateStatus status
      then Resolved (Response.mk status body sent)
      else Rejected (httpRejection (Response.mk status body sent))
  | NoResponse message code =>
      Rejected (networkRejection (AxiosError.mk message code (Some sent) None))
  end.

(** What the request interceptor does to the headers, as a function of
    the two storage entries it reads. *)
Definition stamp (ls : gmap string string) (h : gmap string string)
  : gmap string string :=
  <["Accept-Language" :=
      match Storage.getItem "mediconnect_language" ls with
      | Some l => if Js.truthy (Js.Str l) then l else "en"
      | None => "en"
      end]>
    (match Storage.getToken ls with
     | Some token =>
         if Js.truthy (Js.Str token)
         then <["Authorization" := "Bearer " +:+ token]> h else h
     | None => h
     end).

(** The delays of the timers awaited, newest first. *)
Fixpoint timers (evs : list Event) : list Z :=
  match evs with
  | [] => []
  | SetTimeout ms :: rest => ms :: timers rest
  | _ :: rest => timers rest
  end.

(** ** Concrete runs *)
Module Scenario.

(** The store after a login: [setToken], [setUserRole], [setUserData]. *)
Definition session (token : string) : gmap string string :=
  Storage.setUserData "{}"
    (Storage.setUserRole "patient" (Storage.setToken token ∅)).

Definition page (ls : gmap string string) (path : string) : World :=
  mkWorld ls path (initialDefaults None) [].

Definition getDoctors : Config.t :=
  Config.mk "/doctors" "get" None ∅ Js.Undefined None false.

Definition getProfile : Config.t :=
  Config.mk "/user/profile" "get" None ∅ Js.Undefined None false.

Definition offline : nat -> Config.t -> Outcome :=
  fun _ _ => NoResponse "timeout of 10000ms exceeded" (Some "ECONNABORTED").

Definition answering (status : Z) (body : Js.value)
  : nat -> Config.t -> Outcome :=
  fun _ _ => Answered status body.

Definition flaky (status : Z) (body : Js.value)
  : nat -> Config.t -> Outcome :=
  fun n _ => match n with
             | O => NoResponse "Network Error" (Some "ERR_NETWORK")
             | S _ => Answered status body
             end.

Definition jwtExpired : Js.value :=
  Js.Obj [("message", Js.Str "jwt expired")].

Definition numericMessage : Js.value :=
  Js.Obj [("message", Js.Num 42)].

End Scenario.

(** ** A whole call, by its attempts *)

(** The condition of the retry branch, on the outcome of the attempt made
    with [config]: no response, and the flag not yet set. *)
Definition willRetry (config : Config.t) (o : Outcome) : bool :=
  match o with
  | NoResponse _ _ => negb (Config.__isRetry config)
  | Answered _ _ => false
  end.

(** The world an attempt that settles the call leaves behind. *)
Definition settledWorld (sent : Config.t) (o : Outcome) (w : World) : World :=
  match o with
  | Answered status body =>
      if validateStatus status then log (Dispatch sent) w
      else snd (onStatus (Response.mk status body sent)
                  (log (Dispatch sent) w))
  | NoResponse _ _ =>
      log (Console LogError "Network Error (no response):")
        (log (Dispatch sent) w)
  end.

(** Whether a settled call is the rejection of a 401. *)
Definition unauthorized (outcome : Settled) : bool :=
  match outcome with
  | Rejected reason => (Normalized.status reason =? 401)%Z
  | Resolved _ => false
  end.

(** ** The pages that call the wrapper

    What the [catch] blocks of the pages compute from the rejection they
    are handed. *)
Module Callers.

(** [a ?? b] *)
Definition nullish_or (a b : Js.value) : Js.value :=
  match a with
  | Js.Undefined | Js.Null => b
  | _ => a
  end.

(** [v === n] for a number literal [n]. *)
Definition is_number (v : Js.value) (n : Z) : bool :=
  match v with
  | Js.Num m => (m =? n)%Z
  | _ => false
  end.

(** [v === s] for a string literal [s]. *)
Definition is_string (v : Js.value) (s : string) : bool :=
  match v with
  | Js.Str t => String.eqb t s
  | _ => false
  end.

(** [error?.code]: [undefined] when the object has no such key. *)
Definition code (error : Normalized.t) : Js.value :=
  default Js.Undefined (Normalized.code error).

(** [error?.originalError?.code] *)
Definition originalCode (error : Normalized.t) : Js.value :=
  match Normalized.originalError error with
  | Some original => Js.of_nullable (AxiosError.code original)
  | None => Js.Undefined
  end.

(** [error?.response?.status] and [error?.response?.data?.message]: the
    rejection objects of the wrapper have no [response] key. *)
Definition responseMember (error : Normalized.t) : Js.value := Js.Undefined.

(** pages/DoctorList.jsx, booking:
    [status === 0 || error?.code === 'ERR_NETWORK'] with
    [status = error?.status ?? error?.response?.status ?? null]. *)
Definition bookingOffline (error : Normalized.t) : bool :=
  let status :=
    nullish_or (nullish_or (Js.Num (Normalized.status error))
                  (responseMember error)) Js.Null in
  is_number status 0 || is_string (code error) "ERR_NETWORK".

(** pages/DoctorList.jsx, booking, the text alerted otherwise:
    [error?.message || error?.response?.data?.message || t('BookingError')];
    [translated] is what [t] answers. *)
Definition bookingAlert (translated : Js.value) (error : Normalized.t)
  : Js.value :=
  Js.or_else (Js.or_else (Normalized.message error) (responseMember error))
    translated.

(** components/medicine/MedicineCard.jsx, the text alerted on a failed
    order. *)
Definition orderAlert (error : Normalized.t) : Js.value :=
  Js.or_else (Normalized.message error)
    (Js.Str "Failed to place order. Please try again.").

(** The profile page, [handleSaveProfile]:
    [error?.status === 0 || error?.code === 'ERR_NETWORK' ||
     error?.originalError?.code === 'ERR_NETWORK' ||
     error?.message === 'Network Error'] *)
Definition isNetworkError (error : Normalized.t) : bool :=
  is_number (Js.Num (Normalized.status error)) 0
  || is_string (code error) "ERR_NETWORK"
  || is_string (originalCode error) "ERR_NETWORK"
  || is_string (Normalized.message error) "Network Error".

End Callers.

(** ** context/AuthContext.jsx *)
Module Auth.

Record User : Type := mkUser {
  id : Js.value;
  email : Js.value;
  role : Js.value;
  name : Js.value
}.

(** The provider's state next to the ambient world: the [user] and
    [loading] states, and the paths handed to [navigate], newest first. *)
Record State : Type := mkState {
  world : World;
  user : option User;
  loading : bool;
  routes : list string
}.

Inductive Completion : Type := Returned | Threw.

Definition setStorage (ls : gmap string string) (w : World) : World :=
  mkWorld ls (pathname w) (defaults w) (events w).

Definition setDefaultHeaders (h : gmap string string) (w : World) : World :=
  mkWorld (localStorage w) (pathname w)
    (Defaults.mk (Defaults.baseURL (defaults w)) h
       (Defaults.timeout (defaults w)))
    (events w).

(** [api.defaults.headers.common['Authorization'] = `Bearer ${token}`] *)
Definition setAuthorization (token : string) (w : World) : World :=
  setDefaultHeaders
    (<["Authorization" := "Bearer " +:+ token]>
       (Defaults.headers (defaults w))) w.

Definition logout (s : State) : State :=
  let w := world s in
  let w := setStorage (Storage.removeToken (localStorage w)) w in
  let w := setStorage (Storage.removeUserRole (localStorage w)) w in
  let w := setStorage (Storage.removeUserData (localStorage w)) w in
  let w := setDefaultHeaders
             (delete "Authorization" (Defaults.headers (defaults w))) w in
  let w := setStorage
             (Storage.removeItem "mediconnect_user" (localStorage w)) w in
  mkState w None (loading s) ("/login" :: routes s).

(** [email.split('@')[0]] *)
Fixpoint beforeAt (s : string) : string :=
  match s with
  | EmptyString => EmptyString
  | String c rest =>
      if Ascii.eqb c "@"%char then EmptyString else String c (beforeAt rest)
  end.

Section Builtins.

(** [JSON.stringify]. *)
Variable stringify : Js.value -> string.

(** [jwtDecode] and [JSON.parse]; [None] is a thrown exception. *)
Variable jwtDecode : string -> option Js.value.
Variable parse : string -> option Js.value.

(** [login(email, password, role)], with the mock response it builds;
    [tokenTime] and [idTime] are the two readings of [Date.now()].  It
    answers [{ success: true }]. *)
Definition login (tokenTime idTime : Z) (email password role : string)
    (s : State) : bool * State :=
  let token := "mock-jwt-token-for-demo-" +:+ pretty tokenTime in
  let userData :=
    Js.Obj [("id", Js.Num idTime); ("email", Js.Str email);
            ("name", Js.Str (beforeAt email)); ("role", Js.Str role)] in
  let w := world s in
  let w := setStorage (Storage.setToken token (localStorage w)) w in
  let w := setStorage (Storage.setUserRole role (localStorage w)) w in
  let w := setStorage
             (Storage.setUserData (stringify userData) (localStorage w)) w in
  let u := mkUser (Js.opt_member userData "id")
             (Js.opt_member userData "email")
             (Js.Str role)
             (Js.opt_member userData "name") in
  let w := setAuthorization token w in
  let w := setStorage
             (Storage.setItem "mediconnect_user"
                (stringify
                   (Js.Obj [("id", Js.opt_member userData "id");
                            ("email", Js.opt_member userData "email");
                            ("role", Js.Str role);
                            ("name", Js.opt_member userData "name")]))
                (localStorage w)) w in
  let r :=
    if String.eqb role "patient" then "/patient-dashboard" :: routes s
    else if String.eqb role "doctor" then "/doctor-dashboard" :: routes s
    else routes s in
  (true, mkState w (Some u) (loading s) r).

(** [getUserData] of hooks/storage.js:
    [data ? JSON.parse(data) : null]. *)
Definition getUserData (ls : gmap string string) : option Js.value :=
  match Storage.getItem "mediconnect_user" ls with
  | Some data => if Js.truthy (Js.Str data) then parse data else Some Js.Null
  | None => Some Js.Null
  end.

(** The [try] block of [checkAuth]; [None] when it throws: [jwtDecode]
    or [JSON.parse] throws, or a member of a [null] payload is read. *)
Definition checkAuthTry (token : string) (s : State) : option State :=
  decoded ← jwtDecode token;
  let userRole := Storage.getUserRole (localStorage (world s)) in
  storedUserData ← getUserData (localStorage (world s));
  match decoded with
  | Js.Undefined | Js.Null => None
  | _ =>
      let u :=
        mkUser
          (Js.or_else (Js.opt_member decoded "sub") (Js.opt_member decoded "id"))
          (Js.opt_member decoded "email")
          (Js.or_else (Js.of_nullable userRole) (Js.opt_member decoded "role"))
          (Js.or_else
             (Js.or_else (Js.opt_member decoded "name")
                (Js.opt_member storedUserData "name"))
             (Js.Str "User")) in
      Some (mkState (setAuthorization token (world s)) (Some u)
              (loading s) (routes s))
  end.

(** [console.warn] at the head of the [catch] block; this is also the
    state an exception that leaves the block leaves behind. *)
Definition warned (s : State) : State :=
  mkState
    (log (Console LogWarn
            "Token decode failed, falling back to stored user data:")
       (world s))
    (user s) (loading s) (routes s).

(** The [catch] block of [checkAuth]; [None] when [JSON.parse] throws in
    it. *)
Definition checkAuthCatch (token : string) (s : State) : option State :=
  let s := warned s in
  storedUserData ← getUserData (localStorage (world s));
  let userRole := Storage.getUserRole (localStorage (world s)) in
  if Js.truthy storedUserData then
    let u :=
      mkUser
        (Js.opt_member storedUserData "id")
        (Js.opt_member storedUserData "email")
        (Js.or_else (Js.of_nullable userRole)
           (Js.opt_member storedUserData "role"))
        (Js.or_else (Js.opt_member storedUserData "name") (Js.Str "User")) in
    Some (mkState (setAuthorization token (world s)) (Some u)
            (loading s) (routes s))
  else Some (logout s).

Definition setLoading (b : bool) (s : State) : State :=
  mkState (world s) (user s) b (routes s).

Definition checkAuth (s : State) : Completion * State :=
  match Storage.getToken (localStorage (world s)) with
  | Some token =>
      if Js.truthy (Js.Str token) then
        match checkAuthTry token s with
        | Some s' => (Returned, setLoading false s')
        | None =>
            match checkAuthCatch token s with
            | Some s' => (Returned, setLoading false s')
            | None => (Threw, warned s)
            end
        end
      else (Returned, setLoading false s)
  | None => (Returned, setLoading false s)
  end.

End Builtins.

End Auth.

(** ** Basic facts *)

Ltac run := unfold mbind, M_bind, mret, M_ret, readStorage, readDefaults,
  readPathname, updateStorage, emit in *.

Lemma requestFulfilled_pure config w :
  requestFulfilled config w = (fst (requestFulfilled config w), w).
Proof.
  unfold requestFulfilled. run. reflexivity.
Qed.

Lemma outgoing_isRetry w config :
  Config.__isRetry (outgoing w config) = Config.__isRetry config.
Proof.
  unfold outgoing, requestFulfilled. run. cbn.
  destruct (Storage.getToken (localStorage w)) as [[|a t]|]; reflexivity.
Qed.

Lemma onStatus_quiet response w :
  dispatched (events (snd (onStatus response w))) = dispatched (events w) /\
  timers (events (snd (onStatus response w))) = timers (events w) /\
  pathname (snd (onStatus response w)) = pathname w /\
  defaults (snd (onStatus response w)) = defaults w.
Proof.
  unfold onStatus. run.
  repeat (case_match; cbn; try done).
Qed.

Lemma onStatus_other response w :
  Response.status response ≠ 401%Z ->
  localStorage (snd (onStatus response w)) = localStorage w /\
  navigations (events (snd (onStatus response w))) = navigations (events w).
Proof.
  intros Hne. unfold onStatus.
  destruct (Z.eqb_spec (Response.status response) 401) as [E|_]; [done|].
  run. repeat (case_match; cbn; try done).
Qed.

Lemma onStatus_401 response w :
  Response.status response = 401%Z ->
  onStatus response w =
    (tt, let w1 := mkWorld (Storage.clearStorage (localStorage w))
                     (pathname w) (defaults w) (events w) in
         if bool_decide (pathname w ≠ "/login")
         then log (Navigate "/login") w1 else w1).
Proof.
  intros E. unfold onStatus. rewrite E. run. cbn.
  case_bool_decide; reflexivity.
Qed.

Lemma clearStorage_lookup ls :
  Storage.getToken (Storage.clearStorage ls) = None /\
  Storage.getUserRole (Storage.clearStorage ls) = None /\
  Storage.getUserDataRaw (Storage.clearStorage ls) = None.
Proof.
  unfold Storage.getToken, Storage.getUserRole, Storage.getUserDataRaw,
    Storage.clearStorage, Storage.removeUserData, Storage.removeUserRole,
    Storage.removeToken, Storage.getItem, Storage.removeItem.
  repeat split.
  - rewrite !lookup_delete_ne by done. apply lookup_delete_eq.
  - rewrite lookup_delete_ne by done. apply lookup_delete_eq.
  - apply lookup_delete_eq.
Qed.

(** The rejected side with a response present never calls the instance. *)
Lemma responseRejected_answered retry error response w :
  AxiosError.response error = Some response ->
  responseRejected retry error w =
    (Some (Rejected (httpRejection response)), snd (onStatus response w)).
Proof.
  intros Hr. unfold responseRejected, shouldRetry. rewrite Hr.
  unfold mbind, M_bind, mret, M_ret.
  destruct (onStatus response w) as [[] w']. reflexivity.
Qed.

(** The rejected side without a response and without a retry to make. *)
Lemma responseRejected_final retry error w :
  AxiosError.response error = None ->
  shouldRetry error = None ->
  responseRejected retry error w =
    (Some (Rejected (networkRejection error)),
     log (Console LogError "Network Error (no response):") w).
Proof.
  intros Hr Hs. unfold responseRejected. rewrite Hs, Hr. reflexivity.
Qed.

(** An error that came through the rejected side of the request
    interceptor is normalized by the response interceptor as well, when no
    retry is to be made for it. *)
Lemma requestRejected_normalized retry error w :
  shouldRetry error = None ->
  exists reason w',
    responseRejected retry (requestRejected error) w
      = (Some (Rejected reason), w').
Proof.
  intros Hs. unfold requestRejected.
  destruct (AxiosError.response error) as [response|] eqn:Hr.
  - rewrite (responseRejected_answered retry error response w Hr). eauto.
  - rewrite (responseRejected_final retry error w Hr Hs). eauto.
Qed.

Lemma outgoing_headers w config :
  Config.headers (outgoing w config) =
    stamp (localStorage w) (Config.headers config ∪ Defaults.headers (defaults w)).
Proof.
  unfold outgoing, requestFulfilled, stamp. run. cbn.
  destruct (Storage.getToken (localStorage w)) as [[|a t]|]; reflexivity.
Qed.

Lemma stamp_resend ls (h dh : gmap string string) :
  stamp ls (stamp ls (h ∪ dh) ∪ dh) = stamp ls (h ∪ dh).
Proof.
  apply map_eq. intros k. unfold stamp.
  destruct (Storage.getToken ls) as [token|];
    [destruct (Js.truthy (Js.Str token))|];
    repeat (rewrite lookup_insert || rewrite lookup_union);
    repeat case_decide; try reflexivity;
    destruct (h !! k), (dh !! k); reflexivity.
Qed.

(** Re-issuing a dispatched config against the same storage and defaults
    dispatches it again as it is, the flag apart. *)
Lemma outgoing_resend w w1 config :
  localStorage w1 = localStorage w ->
  defaults w1 = defaults w ->
  outgoing w1 (Config.set___isRetry true (outgoing w config)) =
    Config.set___isRetry true (outgoing w config).
Proof.
  intros Hls Hd.
  assert (Hh := outgoing_headers w1 (Config.set___isRetry true (outgoing w config))).
  rewrite Hls, Hd in Hh. cbn [Config.set___isRetry Config.headers] in Hh.
  rewrite (outgoing_headers w config), stamp_resend in Hh.
  rewrite <- (outgoing_headers w config) in Hh.
  revert Hh. unfold outgoing, requestFulfilled. run. rewrite Hls, Hd.
  destruct (Storage.getToken (localStorage w)) as [[|a t]|]; cbn;
    intros ->; reflexivity.
Qed.

Section Runs.

Variable adapter : nat -> Config.t -> Outcome.

Lemma api_unfold fuel config w :
  api adapter (S fuel) config w =
    let sent := outgoing w config in
    match dispatchRequest adapter sent w with
    | (inl response, w') => responseFulfilled response w'
    | (inr error, w') => responseRejected (api adapter fuel) error w'
    end.
Proof.
  cbn [api]. unfold mbind, M_bind, readDefaults.
  rewrite requestFulfilled_pure. fold (outgoing w config). cbn zeta.
  destruct (dispatchRequest adapter (outgoing w config) w) as [[r|e] w'];
    reflexivity.
Qed.

(** One level of [api], by what the transport does with the attempt. *)
Lemma api_step fuel config w :
  api adapter (S fuel) config w =
    let sent := outgoing w config in
    let w1 := log (Dispatch sent) w in
    match adapter (attempts w) sent with
    | Answered status body =>
        let response := Response.mk status body sent in
        if validateStatus status
        then (Some (Resolved response), w1)
        else (Some (Rejected (httpRejection response)),
              snd (onStatus response w1))
    | NoResponse message code =>
        if Config.__isRetry config
        then (Some (Rejected (networkRejection
                      (AxiosError.mk message code (Some sent) None))),
              log (Console LogError "Network Error (no response):") w1)
        else api adapter fuel (Config.set___isRetry true sent)
               (afterDelay sent w)
    end.
Proof.
  rewrite api_unfold. cbn zeta. unfold dispatchRequest, emit.
  destruct (adapter (attempts w) (outgoing w config)) as [status body|m k].
  - destruct (validateStatus status).
    + reflexivity.
    + apply responseRejected_answered. reflexivity.
  - unfold responseRejected, shouldRetry. cbn.
    rewrite outgoing_isRetry.
    destruct (Config.__isRetry config); reflexivity.
Qed.

(** A call on a flagged config makes one attempt and settles by it. *)
Lemma api_flagged fuel config w :
  Config.__isRetry config = true ->
  exists w',
    api adapter (S fuel) config w =
      (Some (settlement (outgoing w config)
               (adapter (attempts w) (outgoing w config))), w') /\
    dispatched (events w') = outgoing w config :: dispatched (events w) /\
    timers (events w') = timers (events w).
Proof.
  intros Hr. rewrite api_step. cbn zeta. rewrite Hr. unfold settlement.
  destruct (adapter (attempts w) (outgoing w config)) as [status body|m k].
  - destruct (validateStatus status).
    + eexists. split; [reflexivity|]. split; reflexivity.
    + eexists. split; [reflexivity|].
      destruct (onStatus_quiet
                  (Response.mk status body (outgoing w config))
                  (log (Dispatch (outgoing w config)) w)) as (Hd & Ht & _).
      rewrite Hd, Ht. split; reflexivity.
  - eexists. split; [reflexivity|]. split; reflexivity.
Qed.

End Runs.

(** ** The retry policy *)

(** The retry of a call: one attempt with the config of the first
    attempt, flag set, settled by what the transport does with it. *)
Lemma api_retry adapter fuel config w :
  let sent := outgoing w config in
  let again := Config.set___isRetry true sent in
  exists w',
    api adapter (S fuel) again (afterDelay sent w) =
      (Some (settlement again (adapter (S (attempts w)) again)), w') /\
    dispatched (events w') = again :: sent :: dispatched (events w) /\
    timers (events w') = 1000%Z :: timers (events w).
Proof.
  intros sent again.
  destruct (api_flagged adapter fuel again (afterDelay sent w))
    as (w' & Hrun & Hd & Ht); [reflexivity|].
  assert (Hout : outgoing (afterDelay sent w) again = again)
    by (apply outgoing_resend; reflexivity).
  rewrite Hout in Hrun, Hd.
  exists w'. split; [exact Hrun|]. split; [exact Hd|exact Ht].
Qed.

(** C1: a fresh call whose original attempt and whose retry both end
    without a response makes exactly two attempts, the second one with
    the retry flag set, and rejects with status 0; this holds under every
    bound on the nesting of calls, so no third attempt is ever made. *)
Theorem single_retry_bound (adapter : nat -> Config.t -> Outcome)
    (config : Config.t) (w : World) (fuel : nat)
    (m1 m2 : string) (k1 k2 : option string) :
  Config.__isRetry config = false ->
  adapter (attempts w) (outgoing w config) = NoResponse m1 k1 ->
  adapter (S (attempts w)) (Config.set___isRetry true (outgoing w config))
    = NoResponse m2 k2 ->
  exists reason w',
    api adapter (S (S fuel)) config w = (Some (Rejected reason), w') /\
    Normalized.status reason = 0%Z /\
    dispatched (events w') =
      Config.set___isRetry true (outgoing w config)
        :: outgoing w config :: dispatched (events w) /\
    attempts w' = attempts w + 2 /\
    Config.__isRetry (outgoing w config) = false /\
    Config.__isRetry (Config.set___isRetry true (outgoing w config)) = true.
Proof.
  intros Hfresh H1 H2.
  destruct (api_retry adapter fuel config w) as (w' & Hrun & Hd & _).
  cbn zeta in Hrun, Hd. rewrite H2 in Hrun. cbn [settlement] in Hrun.
  eexists. exists w'.
  split.
  { rewrite api_step. cbn zeta. rewrite H1, Hfresh. exact Hrun. }
  split; [reflexivity|].
  split; [exact Hd|].
  split.
  { unfold attempts. rewrite Hd. cbn [length]. lia. }
  split; [rewrite outgoing_isRetry; exact Hfresh | reflexivity].
Qed.

Lemma single_retry_bound_witness :
  exists reason w',
    api Scenario.offline 2 Scenario.getDoctors
      (Scenario.page (Scenario.session "tok1") "/patient-dashboard")
      = (Some (Rejected reason), w') /\
    Normalized.status reason = 0%Z /\
    attempts w' = 2.
Proof.
  destruct (single_retry_bound Scenario.offline Scenario.getDoctors
              (Scenario.page (Scenario.session "tok1") "/patient-dashboard")
              0 _ _ _ _ eq_refl eq_refl eq_refl)
    as (reason & w' & Hrun & Hs & _ & Hn & _).
  exists reason, w'. split; [exact Hrun|]. split; [exact Hs|exact Hn].
Defined.

(** C2: an attempt answered with a failure status settles the call on the
    spot: that attempt is the only one dispatched, no timer is set, and
    the rejection carries the status of the response and its whole body;
    the rejected side yields it whatever the instance it could call for a
    retry, so it does not call it. *)
Theorem no_retry_on_http_error (adapter : nat -> Config.t -> Outcome)
    (config : Config.t) (w : World) (fuel : nat)
    (status : Z) (body : Js.value) :
  adapter (attempts w) (outgoing w config) = Answered status body ->
  validateStatus status = false ->
  exists reason w',
    api adapter (S fuel) config w = (Some (Rejected reason), w') /\
    Normalized.status reason = status /\
    Normalized.data reason = Some body /\
    dispatched (events w') = outgoing w config :: dispatched (events w) /\
    attempts w' = attempts w + 1 /\
    timers (events w') = timers (events w) /\
    forall retry error,
      AxiosError.response error
        = Some (Response.mk status body (outgoing w config)) ->
      responseRejected retry error (log (Dispatch (outgoing w config)) w)
        = (Some (Rejected reason), w').
Proof.
  intros Ha Hv. rewrite api_step. cbn zeta. rewrite Ha, Hv.
  destruct (onStatus_quiet
              (Response.mk status body (outgoing w config))
              (log (Dispatch (outgoing w config)) w)) as (Hd & Ht & _).
  eexists. eexists. split; [reflexivity|].
  split; [reflexivity|]. split; [reflexivity|].
  split; [exact Hd|]. split; [|split; [exact Ht|]].
  - unfold attempts. rewrite Hd. cbn. lia.
  - intros retry error Hr. apply responseRejected_answered. exact Hr.
Qed.

Lemma no_retry_on_http_error_witness :
  exists reason w',
    api (Scenario.answering 500 (Js.Obj [("message", Js.Str "boom")])) 7
      Scenario.getDoctors
      (Scenario.page (Scenario.session "tok1") "/patient-dashboard")
      = (Some (Rejected reason), w') /\
    Normalized.status reason = 500%Z /\
    Normalized.data reason = Some (Js.Obj [("message", Js.Str "boom")]) /\
    attempts w' = 1.
Proof.
  destruct (no_retry_on_http_error
              (Scenario.answering 500 (Js.Obj [("message", Js.Str "boom")]))
              Scenario.getDoctors
              (Scenario.page (Scenario.session "tok1") "/patient-dashboard")
              6 500 (Js.Obj [("message", Js.Str "boom")]) eq_refl eq_refl)
    as (reason & w' & Hrun & Hs & Hb & _ & Hn & _).
  exists reason, w'. repeat split; assumption.
Defined.

(** C7: when the first attempt of a fresh call ends without a response,
    the call continues as the retry: a single timer of 1000 ms is awaited
    after the failed attempt, then the config of that attempt is
    dispatched once more, unchanged but for the retry flag, and whatever
    this second attempt settles to (the response, the rejection of a
    failure status, or the status-0 rejection) is the result of the
    original call. *)
Theorem retry_once_after_delay (adapter : nat -> Config.t -> Outcome)
    (config : Config.t) (w : World) (fuel : nat)
    (message : string) (code : option string) :
  Config.__isRetry config = false ->
  adapter (attempts w) (outgoing w config) = NoResponse message code ->
  let sent := outgoing w config in
  let again := Config.set___isRetry true sent in
  api adapter (S (S fuel)) config w
    = api adapter (S fuel) again (afterDelay sent w) /\
  events (afterDelay sent w) =
    SetTimeout 1000
      :: Console LogWarn "Network error detected, retrying request once..."
      :: Dispatch sent :: events w /\
  exists w',
    api adapter (S (S fuel)) config w =
      (Some (settlement again (adapter (S (attempts w)) again)), w') /\
    dispatched (events w') = again :: sent :: dispatched (events w) /\
    timers (events w') = 1000%Z :: timers (events w).
Proof.
  intros Hfresh Ha sent again.
  assert (Hstep : api adapter (S (S fuel)) config w
                  = api adapter (S fuel) again (afterDelay sent w)).
  { subst sent again. rewrite api_step. cbn zeta. rewrite Ha, Hfresh.
    reflexivity. }
  split; [exact Hstep|]. split; [reflexivity|].
  destruct (api_retry adapter fuel config w) as (w' & Hrun & Hd & Ht).
  exists w'. rewrite Hstep. split; [exact Hrun|]. split; [exact Hd|exact Ht].
Qed.

Lemma retry_once_after_delay_witness :
  exists w',
    api (Scenario.flaky 200 (Js.Arr [])) 2 Scenario.getDoctors
      (Scenario.page (Scenario.session "tok1") "/patient-dashboard")
    = (Some (Resolved
               (Response.mk 200 (Js.Arr [])
                  (Config.set___isRetry true
                     (outgoing
                        (Scenario.page (Scenario.session "tok1")
                           "/patient-dashboard")
                        Scenario.getDoctors)))), w') /\
    timers (events w') = [1000%Z].
Proof.
  destruct (retry_once_after_delay (Scenario.flaky 200 (Js.Arr []))
              Scenario.getDoctors
              (Scenario.page (Scenario.session "tok1") "/patient-dashboard")
              0 _ _ eq_refl eq_refl)
    as (_ & _ & w' & Hrun & _ & Ht).
  exists w'. split; [exact Hrun|exact Ht].
Defined.

(** ** The request phase *)

(** What a call dispatches: the outgoing config, and after it at most the
    same config with the flag set. *)
Lemma api_dispatched adapter fuel config w :
  let sent := outgoing w config in
  exists rest,
    dispatched (events (snd (api adapter (S fuel) config w)))
      = rest ++ sent :: dispatched (events w) /\
    (rest = [] \/ rest = [Config.set___isRetry true sent]).
Proof.
  intros sent. rewrite api_step. cbn zeta. fold sent.
  destruct (adapter (attempts w) sent) as [status body|m k].
  - destruct (validateStatus status).
    + exists []. split; [reflexivity|left; reflexivity].
    + exists []. split; [|left; reflexivity].
      apply (onStatus_quiet (Response.mk status body sent)
               (log (Dispatch sent) w)).
  - destruct (Config.__isRetry config).
    + exists []. split; [reflexivity|left; reflexivity].
    + destruct fuel as [|fuel].
      * exists []. split; [reflexivity|left; reflexivity].
      * destruct (api_retry adapter fuel config w) as (w' & Hrun & Hd & _).
        cbn zeta in Hrun, Hd. fold sent in Hrun, Hd. rewrite Hrun.
        exists [Config.set___isRetry true sent].
        split; [exact Hd|right; reflexivity].
Qed.

Lemma stamp_authorization ls (h : gmap string string) :
  stamp ls h !! "Authorization" =
    match Storage.getToken ls with
    | Some token =>
        if Js.truthy (Js.Str token) then Some ("Bearer " +:+ token)
        else h !! "Authorization"
    | None => h !! "Authorization"
    end.
Proof.
  unfold stamp. rewrite lookup_insert_ne by done.
  destruct (Storage.getToken ls) as [token|]; [|reflexivity].
  destruct (Js.truthy (Js.Str token)); [|reflexivity].
  apply lookup_insert_eq.
Qed.

(** C3, as the code has it: with a non-empty token persisted, every
    attempt the call dispatches carries [Authorization: Bearer <token>];
    with no token persisted, or with the empty string persisted as the
    token, the interceptor adds nothing: the header of the dispatched
    config is the one the caller or the instance defaults supplied, if
    any. *)
Theorem auth_header_injection (adapter : nat -> Config.t -> Outcome)
    (config : Config.t) (w : World) (fuel : nat) :
  let sent := outgoing w config in
  let merged := mergeConfig (defaults w) config in
  (forall token,
      Storage.getToken (localStorage w) = Some token -> token ≠ "" ->
      Config.headers sent !! "Authorization" = Some ("Bearer " +:+ token)) /\
  (Storage.getToken (localStorage w) = None \/
   Storage.getToken (localStorage w) = Some "" ->
      Config.headers sent !! "Authorization"
        = Config.headers merged !! "Authorization") /\
  exists rest,
    dispatched (events (snd (api adapter (S fuel) config w)))
      = rest ++ sent :: dispatched (events w) /\
    forall c, c ∈ rest -> Config.headers c = Config.headers sent.
Proof.
  intros sent merged.
  assert (Hh : Config.headers sent !! "Authorization" =
               match Storage.getToken (localStorage w) with
               | Some token =>
                   if Js.truthy (Js.Str token) then Some ("Bearer " +:+ token)
                   else Config.headers merged !! "Authorization"
               | None => Config.headers merged !! "Authorization"
               end).
  { unfold sent. rewrite outgoing_headers. apply stamp_authorization. }
  split; [|split].
  - intros token Ht Hne. rewrite Hh, Ht.
    destruct token as [|a t]; [done|reflexivity].
  - intros [Ht|Ht]; rewrite Hh, Ht; reflexivity.
  - destruct (api_dispatched adapter fuel config w) as (rest & Hd & Hrest).
    exists rest. split; [exact Hd|].
    intros c Hc. destruct Hrest as [->| ->].
    + apply elem_of_nil in Hc. destruct Hc.
    + apply list_elem_of_singleton in Hc. subst c. reflexivity.
Qed.

Lemma auth_header_injection_witness :
  Config.headers
    (outgoing (Scenario.page (Scenario.session "abc") "/patient-dashboard")
       Scenario.getDoctors) !! "Authorization" = Some "Bearer abc" /\
  Config.headers
    (outgoing (Scenario.page ∅ "/login") Scenario.getDoctors)
    !! "Authorization" = None.
Proof.
  split.
  - apply (auth_header_injection Scenario.offline Scenario.getDoctors
             (Scenario.page (Scenario.session "abc") "/patient-dashboard") 1).
    + reflexivity.
    + discriminate.
  - rewrite (proj1 (proj2 (auth_header_injection Scenario.offline
               Scenario.getDoctors (Scenario.page ∅ "/login") 1))).
    + reflexivity.
    + left. reflexivity.
Defined.

(** C3 as stated fails: the empty string is a persisted token, and the
    request goes out without any [Authorization] header. *)
Lemma auth_header_empty_token :
  let w := Scenario.page (Scenario.session "") "/patient-dashboard" in
  Storage.getToken (localStorage w) = Some "" /\
  dispatched (events (snd (api (Scenario.answering 200 Js.Null) 1
                             Scenario.getDoctors w)))
    = [outgoing w Scenario.getDoctors] /\
  Config.headers (outgoing w Scenario.getDoctors) !! "Authorization" = None /\
  Config.headers (outgoing w Scenario.getDoctors) !! "Authorization"
    ≠ Some ("Bearer " +:+ "").
Proof.
  cbn zeta. split; [reflexivity|]. split; [reflexivity|].
  split; [reflexivity|]. vm_compute. discriminate.
Qed.

(** ** Status side effects *)

(** C4: a call whose attempt is answered with 401 rejects with status 401,
    and the world handed back with that rejection already has the token,
    the role and the user data removed; [/login] is navigated to once when
    the current path is another one, and not at all when it is [/login]. *)
Theorem unauthorized_clears_session (adapter : nat -> Config.t -> Outcome)
    (config : Config.t) (w : World) (fuel : nat) (body : Js.value) :
  adapter (attempts w) (outgoing w config) = Answered 401 body ->
  exists reason w',
    api adapter (S fuel) config w = (Some (Rejected reason), w') /\
    Normalized.status reason = 401%Z /\
    Storage.getToken (localStorage w') = None /\
    Storage.getUserRole (localStorage w') = None /\
    Storage.getUserDataRaw (localStorage w') = None /\
    (pathname w ≠ "/login" ->
       navigations (events w') = "/login" :: navigations (events w)) /\
    (pathname w = "/login" ->
       navigations (events w') = navigations (events w)).
Proof.
  intros Ha. rewrite api_step. cbn zeta. rewrite Ha.
  change (validateStatus 401) with false. cbv iota.
  rewrite onStatus_401 by reflexivity. cbn [snd].
  eexists. eexists. split; [reflexivity|]. split; [reflexivity|].
  destruct (clearStorage_lookup (localStorage w)) as (Ht & Hr & Hu).
  case_bool_decide as Hp; cbn;
    (split; [exact Ht|]; split; [exact Hr|]; split; [exact Hu|]);
    split; intros Hq; try reflexivity; done.
Qed.

Lemma unauthorized_clears_session_witness :
  exists reason w',
    api (Scenario.answering 401 Scenario.jwtExpired) 2 Scenario.getProfile
      (Scenario.page (Scenario.session "expired") "/profile")
      = (Some (Rejected reason), w') /\
    Normalized.status reason = 401%Z /\
    Storage.getToken (localStorage w') = None /\
    Storage.getUserRole (localStorage w') = None /\
    Storage.getUserDataRaw (localStorage w') = None /\
    navigations (events w') = ["/login"].
Proof.
  destruct (unauthorized_clears_session
              (Scenario.answering 401 Scenario.jwtExpired)
              Scenario.getProfile
              (Scenario.page (Scenario.session "expired") "/profile")
              1 Scenario.jwtExpired eq_refl)
    as (reason & w' & Hrun & Hs & Ht & Hr & Hu & Hnav & _).
  exists reason, w'. repeat (split; [assumption|]).
  apply Hnav. vm_compute. discriminate.
Defined.

(** C5: when the failure carries a response whose status is not 401, the
    rejected side of the response interceptor leaves the persisted store
    as it is, the three session keys included. *)
Theorem only_unauthorized_destroys_session
    (retry : Config.t -> M (option Settled))
    (error : AxiosError.t) (response : Response.t) (w : World) :
  AxiosError.response error = Some response ->
  Response.status response ≠ 401%Z ->
  let w' := snd (responseRejected retry error w) in
  localStorage w' = localStorage w /\
  Storage.getToken (localStorage w') = Storage.getToken (localStorage w) /\
  Storage.getUserRole (localStorage w')
    = Storage.getUserRole (localStorage w) /\
  Storage.getUserDataRaw (localStorage w')
    = Storage.getUserDataRaw (localStorage w).
Proof.
  intros Hr Hne w'.
  assert (Hls : localStorage w' = localStorage w).
  { unfold w'. rewrite (responseRejected_answered retry error response w Hr).
    apply onStatus_other. exact Hne. }
  rewrite Hls. repeat split; reflexivity.
Qed.

Lemma only_unauthorized_destroys_session_witness :
  let error :=
    AxiosError.mk "Request failed" (Some "ERR_BAD_REQUEST") None
      (Some (Response.mk 403 (Js.Obj [("message", Js.Str "forbidden")])
               Scenario.getProfile)) in
  localStorage
    (snd (responseRejected (api Scenario.offline 3) error
            (Scenario.page (Scenario.session "tok1") "/profile")))
  = Scenario.session "tok1".
Proof.
  cbn zeta.
  apply (only_unauthorized_destroys_session (api Scenario.offline 3) _
           (Response.mk 403 (Js.Obj [("message", Js.Str "forbidden")])
              Scenario.getProfile)
           (Scenario.page (Scenario.session "tok1") "/profile")).
  - reflexivity.
  - discriminate.
Defined.

(** The same at the level of a call: a call none of whose attempts is
    answered with 401 leaves the persisted store as it is. *)
Lemma api_keeps_session adapter fuel config w :
  (forall n c body, adapter n c ≠ Answered 401 body) ->
  localStorage (snd (api adapter fuel config w)) = localStorage w.
Proof.
  intros Hno. revert config w.
  induction fuel as [|fuel IH]; intros config w; [reflexivity|].
  rewrite api_step. cbn zeta.
  destruct (adapter (attempts w) (outgoing w config)) as [status body|m k] eqn:Ha.
  - destruct (validateStatus status); [reflexivity|].
    cbn [snd].
    transitivity (localStorage (log (Dispatch (outgoing w config)) w));
      [|reflexivity].
    apply onStatus_other. cbn. intros ->. exact (Hno _ _ _ Ha).
  - destruct (Config.__isRetry config); [reflexivity|].
    rewrite IH. reflexivity.
Qed.

(** C8: a call whose attempt is answered with an accepted status resolves
    with the response of the transport as it is (status, body and the
    dispatched config), and nothing but the dispatch happened: the
    persisted store, the path, the navigations and the timers are those
    of before. *)
Theorem success_passes_through (adapter : nat -> Config.t -> Outcome)
    (config : Config.t) (w : World) (fuel : nat)
    (status : Z) (body : Js.value) :
  adapter (attempts w) (outgoing w config) = Answered status body ->
  validateStatus status = true ->
  let response := Response.mk status body (outgoing w config) in
  exists w',
    api adapter (S fuel) config w = (Some (Resolved response), w') /\
    responseFulfilled response w' = (Some (Resolved response), w') /\
    localStorage w' = localStorage w /\
    pathname w' = pathname w /\
    events w' = Dispatch (outgoing w config) :: events w.
Proof.
  intros Ha Hv response. rewrite api_step. cbn zeta. rewrite Ha, Hv.
  eexists. split; [reflexivity|]. repeat split; reflexivity.
Qed.

Lemma success_passes_through_witness :
  exists w',
    api (Scenario.answering 200 (Js.Arr [Js.Str "dr. a"; Js.Str "dr. b"])) 1
      Scenario.getDoctors
      (Scenario.page (Scenario.session "tok1") "/patient-dashboard")
    = (Some (Resolved
               (Response.mk 200 (Js.Arr [Js.Str "dr. a"; Js.Str "dr. b"])
                  (outgoing
                     (Scenario.page (Scenario.session "tok1")
                        "/patient-dashboard")
                     Scenario.getDoctors))), w') /\
    localStorage w' = Scenario.session "tok1".
Proof.
  destruct (success_passes_through
              (Scenario.answering 200 (Js.Arr [Js.Str "dr. a"; Js.Str "dr. b"]))
              Scenario.getDoctors
              (Scenario.page (Scenario.session "tok1") "/patient-dashboard")
              0 200 (Js.Arr [Js.Str "dr. a"; Js.Str "dr. b"])
              eq_refl eq_refl)
    as (w' & Hrun & _ & Hls & _).
  exists w'. split; [exact Hrun|exact Hls].
Defined.

(** C9: clearing the session twice is clearing it once, on every store;
    so a second handler of a 401 leaves the store the first one left. *)
Theorem clearStorage_idempotent (ls : gmap string string)
    (b1 b2 : Js.value) (c1 c2 : Config.t) (w : World) :
  Storage.clearStorage (Storage.clearStorage ls) = Storage.clearStorage ls /\
  localStorage (snd (onStatus (Response.mk 401 b2 c2)
                       (snd (onStatus (Response.mk 401 b1 c1) w))))
  = localStorage (snd (onStatus (Response.mk 401 b1 c1) w)).
Proof.
  assert (Hidem : forall m : gmap string string,
             Storage.clearStorage (Storage.clearStorage m)
             = Storage.clearStorage m).
  { intros m. unfold Storage.clearStorage, Storage.removeUserData,
      Storage.removeUserRole, Storage.removeToken, Storage.removeItem.
    apply map_eq. intros k. rewrite !lookup_delete.
    repeat case_decide; reflexivity. }
  split; [apply Hidem|].
  rewrite !onStatus_401 by reflexivity. cbn [snd].
  repeat case_bool_decide; cbn; apply Hidem.
Qed.

(** ** The shape of rejections *)

(** Two levels of calls settle every call, by an attempt that is not
    followed by a retry. *)
Lemma api_settles adapter fuel config w :
  exists sent o w',
    api adapter (S (S fuel)) config w = (Some (settlement sent o), w').
Proof.
  destruct (Config.__isRetry config) eqn:Hflag.
  - destruct (api_flagged adapter (S fuel) config w Hflag) as (w' & Hrun & _).
    eauto.
  - rewrite api_step. cbn zeta. rewrite Hflag.
    destruct (adapter (attempts w) (outgoing w config)) as [status body|m k] eqn:Ha.
    + destruct (api_flagged adapter (S fuel)
                  (Config.set___isRetry true config) w eq_refl)
        as (w' & _ & _).
      exists (outgoing w config), (Answered status body).
      unfold settlement. destruct (validateStatus status); eauto.
    + destruct (api_retry adapter fuel config w) as (w' & Hrun & _).
      eauto.
Qed.

Lemma or_else_message (m : Js.value) (fallback : string) :
  Js.typeof (Js.or_else m (Js.Str fallback)) = "string" \/
  (Js.or_else m (Js.Str fallback) = m /\ Js.truthy m = true).
Proof.
  unfold Js.or_else. destruct (Js.truthy m); [right|left]; done.
Qed.

(** C6, as the code has it: with room for the retry every call settles,
    and it resolves only on an accepted status; a rejection is always one
    of the two normalized objects, with the status of the response or 0,
    and its message is a string unless the body of the response carries a
    truthy [message] that is not one, which is then passed on as it is. *)
Theorem normalization_total (adapter : nat -> Config.t -> Outcome)
    (config : Config.t) (w : World) (fuel : nat) :
  exists outcome w',
    api adapter (S (S fuel)) config w = (Some outcome, w') /\
    match outcome with
    | Resolved response => validateStatus (Response.status response) = true
    | Rejected reason =>
        ((exists error,
            AxiosError.response error = None /\
            reason = networkRejection error /\
            Normalized.status reason = 0%Z) \/
         (exists response,
            validateStatus (Response.status response) = false /\
            reason = httpRejection response /\
            Normalized.status reason = Response.status response)) /\
        (Js.typeof (Normalized.message reason) = "string" \/
         exists body,
           Normalized.data reason = Some body /\
           Normalized.message reason = Js.opt_member body "message" /\
           Js.truthy (Js.opt_member body "message") = true)
    end.
Proof.
  destruct (api_settles adapter fuel config w) as (sent & o & w' & Hrun).
  exists (settlement sent o), w'. split; [exact Hrun|].
  destruct o as [status body|m k]; cbn [settlement].
  - destruct (validateStatus status) eqn:Hv; [exact Hv|].
    split.
    + right. exists (Response.mk status body sent).
      repeat split; [exact Hv|reflexivity..].
    + cbn. destruct (or_else_message (Js.opt_member body "message")
                       "An error occurred") as [Hs|[He Ht]].
      * left. exact Hs.
      * right. exists body. done.
  - split.
    + left. exists (AxiosError.mk m k (Some sent) None).
      repeat split; reflexivity.
    + left. cbn. unfold Js.or_else. destruct (Js.truthy (Js.Str m)); done.
Qed.

(** C6 as stated fails: a 400 whose body is [{message: 42}] rejects with
    the number 42 as the message. *)
Lemma message_not_a_string :
  exists reason w',
    api (Scenario.answering 400 Scenario.numericMessage) 2
      Scenario.getDoctors
      (Scenario.page (Scenario.session "tok1") "/patient-dashboard")
      = (Some (Rejected reason), w') /\
    Normalized.status reason = 400%Z /\
    Normalized.message reason = Js.Num 42 /\
    Js.typeof (Normalized.message reason) = "number" /\
    Js.typeof (Normalized.message reason) ≠ "string".
Proof.
  eexists. eexists. split; [vm_compute; reflexivity|]. cbn.
  repeat split; done.
Qed.

(** C10: the rejection of a failure without a response, when no retry is
    to be made, has status 0, holds the raw error as [originalError], and
    always has a [code] key: the code of the error when the error has
    one, [null] when it has none.  The errors are those axios builds: its
    error constructor leaves an empty code unset and its codes are
    non-empty constants, so the code of an error is never the empty
    string. *)
Theorem network_rejection_fields (retry : Config.t -> M (option Settled))
    (error : AxiosError.t) (w : World) :
  AxiosError.response error = None ->
  shouldRetry error = None ->
  AxiosError.code error ≠ Some "" ->
  exists reason w',
    responseRejected retry error w = (Some (Rejected reason), w') /\
    Normalized.status reason = 0%Z /\
    Normalized.originalError reason = Some error /\
    is_Some (Normalized.code reason) /\
    (forall c, AxiosError.code error = Some c ->
       Normalized.code reason = Some (Js.Str c)) /\
    (AxiosError.code error = None ->
       Normalized.code reason = Some Js.Null).
Proof.
  intros Hr Hs Hcode. rewrite (responseRejected_final retry error w Hr Hs).
  eexists. eexists. split; [reflexivity|]. cbn.
  split; [reflexivity|]. split; [reflexivity|]. split; [eauto|].
  split.
  - intros c Hc. rewrite Hc in Hcode |- *. destruct c; done.
  - intros Hc. rewrite Hc. reflexivity.
Qed.

Lemma network_rejection_fields_witness :
  let timedOut :=
    AxiosError.mk "timeout of 10000ms exceeded" (Some "ECONNABORTED")
      (Some (Config.set___isRetry true Scenario.getDoctors)) None in
  let thrown := AxiosError.mk "Network Error" None None None in
  (exists reason w',
     responseRejected (api Scenario.offline 1) timedOut
       (Scenario.page (Scenario.session "tok1") "/patient-dashboard")
       = (Some (Rejected reason), w') /\
     Normalized.code reason = Some (Js.Str "ECONNABORTED") /\
     Normalized.originalError reason = Some timedOut) /\
  (exists reason w',
     responseRejected (api Scenario.offline 1) thrown
       (Scenario.page (Scenario.session "tok1") "/patient-dashboard")
       = (Some (Rejected reason), w') /\
     Normalized.code reason = Some Js.Null).
Proof.
  cbn zeta. split.
  - destruct (network_rejection_fields (api Scenario.offline 1)
                (AxiosError.mk "timeout of 10000ms exceeded"
                   (Some "ECONNABORTED")
                   (Some (Config.set___isRetry true Scenario.getDoctors))
                   None)
                (Scenario.page (Scenario.session "tok1") "/patient-dashboard")
                eq_refl eq_refl ltac:(discriminate))
      as (reason & w' & Hrun & _ & Ho & _ & Hc & _).
    exists reason, w'. split; [exact Hrun|]. split; [|exact Ho].
    apply Hc. reflexivity.
  - destruct (network_rejection_fields (api Scenario.offline 1)
                (AxiosError.mk "Network Error" None None None)
                (Scenario.page (Scenario.session "tok1") "/patient-dashboard")
                eq_refl eq_refl ltac:(discriminate))
      as (reason & w' & Hrun & _ & _ & _ & _ & Hn).
    exists reason, w'. split; [exact Hrun|].
    apply Hn. reflexivity.
Defined.

(** ** Whole calls under an arbitrary transport *)

Lemma settledWorld_facts sent o w :
  let w' := settledWorld sent o w in
  defaults w' = defaults w /\
  pathname w' = pathname w /\
  dispatched (events w') = sent :: dispatched (events w) /\
  timers (events w') = timers (events w) /\
  localStorage w' =
    (if unauthorized (settlement sent o)
     then Storage.clearStorage (localStorage w) else localStorage w) /\
  navigations (events w') =
    (if unauthorized (settlement sent o) && bool_decide (pathname w ≠ "/login")
     then "/login" :: navigations (events w) else navigations (events w)).
Proof.
  destruct o as [status body|m k]; cbn [settledWorld settlement].
  - destruct (validateStatus status) eqn:Hv; [done|].
    set (response := Response.mk status body sent).
    set (w1 := log (Dispatch sent) w).
    destruct (onStatus_quiet response w1) as (Hd & Ht & Hp & Hdef).
    cbn zeta. rewrite Hd, Ht, Hp, Hdef. cbn [unauthorized httpRejection Normalized.status].
    do 4 (split; [reflexivity|]).
    destruct (Z.eqb_spec (Response.status response) 401) as [E|E].
    + rewrite (onStatus_401 response w1 E). cbn [snd].
      change (pathname w1) with (pathname w).
      case_bool_decide; cbn; done.
    + destruct (onStatus_other response w1 E) as [Hls Hnav].
      rewrite Hls, Hnav. done.
  - cbn. done.
Qed.

(** A call with room for the retry, in closed form: it is settled by its
    first attempt, or, when that one gets no response on a config without
    the flag, by the second attempt, made after the delay with the same
    config, flag set. *)
Lemma api_run adapter fuel config w :
  let sent := outgoing w config in
  let again := Config.set___isRetry true sent in
  let o1 := adapter (attempts w) sent in
  let o2 := adapter (S (attempts w)) again in
  api adapter (S (S fuel)) config w =
    if willRetry config o1
    then (Some (settlement again o2), settledWorld again o2 (afterDelay sent w))
    else (Some (settlement sent o1), settledWorld sent o1 w).
Proof.
  intros sent again o1 o2.
  assert (Hone : forall f c w0, Config.__isRetry c = true ->
            api adapter (S f) c w0 =
              (Some (settlement (outgoing w0 c) (adapter (attempts w0) (outgoing w0 c))),
               settledWorld (outgoing w0 c) (adapter (attempts w0) (outgoing w0 c)) w0)).
  { intros f c w0 Hc. rewrite api_step. cbn zeta. rewrite Hc.
    destruct (adapter (attempts w0) (outgoing w0 c)) as [status body|m k];
      cbn [settlement settledWorld]; [|reflexivity].
    destruct (validateStatus status); reflexivity. }
  destruct (Config.__isRetry config) eqn:Hflag.
  - rewrite (Hone _ _ _ Hflag). fold sent. fold o1.
    unfold willRetry. rewrite Hflag. destruct o1; reflexivity.
  - rewrite api_step. cbn zeta. fold sent. fold o1. rewrite Hflag.
    unfold willRetry. rewrite Hflag.
    destruct o1 as [status body|m k] eqn:Ho1; cbn [negb settlement settledWorld].
    + destruct (validateStatus status); reflexivity.
    + fold again. rewrite (Hone fuel again (afterDelay sent w) eq_refl).
      assert (Hout : outgoing (afterDelay sent w) again = again)
        by (apply outgoing_resend; reflexivity).
      rewrite Hout. reflexivity.
Qed.

(** X1: whatever the transport does, a call retries exactly when its first
    attempt gets no response and its config does not carry the flag: then
    it makes two attempts with one timer of 1000 ms between them; in every
    other case it makes one attempt and sets no timer. *)
Theorem retry_exactly_when (adapter : nat -> Config.t -> Outcome)
    (config : Config.t) (w : World) (fuel : nat) :
  let w' := snd (api adapter (S (S fuel)) config w) in
  let first := adapter (attempts w) (outgoing w config) in
  attempts w' = attempts w + (if willRetry config first then 2 else 1) /\
  timers (events w') =
    (if willRetry config first then [1000%Z] else []) ++ timers (events w) /\
  (willRetry config first = true <->
     Config.__isRetry config = false /\
     exists message code, first = NoResponse message code).
Proof.
  intros w' first. unfold w'. rewrite api_run. cbn zeta. fold first.
  split; [|split].
  - destruct (willRetry config first); cbn [snd]; unfold attempts.
    + destruct (settledWorld_facts
                  (Config.set___isRetry true (outgoing w config))
                  (adapter (S (length (dispatched (events w))))
                     (Config.set___isRetry true (outgoing w config)))
                  (afterDelay (outgoing w config) w)) as (_ & _ & Hd & _).
      cbn zeta in Hd. unfold attempts. rewrite Hd. cbn. lia.
    + destruct (settledWorld_facts (outgoing w config) first w)
        as (_ & _ & Hd & _).
      cbn zeta in Hd. rewrite Hd. cbn. lia.
  - destruct (willRetry config first); cbn [snd].
    + destruct (settledWorld_facts
                  (Config.set___isRetry true (outgoing w config))
                  (adapter (S (attempts w))
                     (Config.set___isRetry true (outgoing w config)))
                  (afterDelay (outgoing w config) w)) as (_ & _ & _ & Ht & _).
      cbn zeta in Ht. rewrite Ht. reflexivity.
    + destruct (settledWorld_facts (outgoing w config) first w)
        as (_ & _ & _ & Ht & _).
      cbn zeta in Ht. rewrite Ht. reflexivity.
  - unfold willRetry. destruct first as [status body|m k].
    + split; [discriminate|]. intros (_ & m & k & H). discriminate.
    + destruct (Config.__isRetry config); cbn; split; try done.
      * intros [H _]. discriminate.
      * intros _. split; [reflexivity|]. eauto.
Qed.

(** X2: whatever the transport does, a call leaves the instance defaults
    and the current path alone, and its only write to the persisted store
    is the clear of the 401 branch: the store is cleared when the call
    ends as the rejection of a 401 and is the store of before in every
    other case, also when the 401 is the answer to the retry. *)
Theorem call_state_by_outcome (adapter : nat -> Config.t -> Outcome)
    (config : Config.t) (w : World) (fuel : nat) :
  exists outcome w',
    api adapter (S (S fuel)) config w = (Some outcome, w') /\
    defaults w' = defaults w /\
    pathname w' = pathname w /\
    localStorage w' =
      (if unauthorized outcome
       then Storage.clearStorage (localStorage w) else localStorage w).
Proof.
  rewrite api_run. cbn zeta.
  destruct (willRetry config (adapter (attempts w) (outgoing w config))).
  - eexists. eexists. split; [reflexivity|].
    destruct (settledWorld_facts
                (Config.set___isRetry true (outgoing w config))
                (adapter (S (attempts w))
                   (Config.set___isRetry true (outgoing w config)))
                (afterDelay (outgoing w config) w))
      as (Hdef & Hp & _ & _ & Hls & _).
    cbn zeta in *. rewrite Hdef, Hp, Hls. done.
  - eexists. eexists. split; [reflexivity|].
    destruct (settledWorld_facts (outgoing w config)
                (adapter (attempts w) (outgoing w config)) w)
      as (Hdef & Hp & _ & _ & Hls & _).
    cbn zeta in *. rewrite Hdef, Hp, Hls. done.
Qed.

(** X3: whatever the transport does, a call assigns [window.location.href]
    at most once, only to [/login], and exactly when it ends as the
    rejection of a 401 while the current path is not [/login]. *)
Theorem call_navigation_by_outcome (adapter : nat -> Config.t -> Outcome)
    (config : Config.t) (w : World) (fuel : nat) :
  exists outcome w',
    api adapter (S (S fuel)) config w = (Some outcome, w') /\
    navigations (events w') =
      (if unauthorized outcome && bool_decide (pathname w ≠ "/login")
       then "/login" :: navigations (events w)
       else navigations (events w)).
Proof.
  rewrite api_run. cbn zeta.
  destruct (willRetry config (adapter (attempts w) (outgoing w config))).
  - eexists. eexists. split; [reflexivity|].
    destruct (settledWorld_facts
                (Config.set___isRetry true (outgoing w config))
                (adapter (S (attempts w))
                   (Config.set___isRetry true (outgoing w config)))
                (afterDelay (outgoing w config) w))
      as (_ & _ & _ & _ & _ & Hnav).
    cbn zeta in Hnav. rewrite Hnav. done.
  - eexists. eexists. split; [reflexivity|].
    destruct (settledWorld_facts (outgoing w config)
                (adapter (attempts w) (outgoing w config)) w)
      as (_ & _ & _ & _ & _ & Hnav).
    cbn zeta in Hnav. rewrite Hnav. done.
Qed.

(** ** What the pages make of a rejection *)

Lemma settlement_rejection sent o reason :
  settlement sent o = Rejected reason ->
  (exists error, AxiosError.response error = None /\
                 reason = networkRejection error) \/
  (exists response, reason = httpRejection response).
Proof.
  destruct o as [status body|m k]; cbn [settlement].
  - destruct (validateStatus status); [discriminate|].
    intros [= <-]. right. eauto.
  - intros [= <-]. left. eexists. split; [|reflexivity]. reflexivity.
Qed.

(** Every rejection of a call is one of the two normalized objects. *)
Lemma api_rejection adapter fuel config w reason w' :
  api adapter (S (S fuel)) config w = (Some (Rejected reason), w') ->
  (exists error, AxiosError.response error = None /\
                 reason = networkRejection error) \/
  (exists response, reason = httpRejection response).
Proof.
  rewrite api_run. cbn zeta.
  destruct (willRetry config (adapter (attempts w) (outgoing w config)));
    intros [= H _]; exact (settlement_rejection _ _ _ H).
Qed.

(** X4: the message of every rejection a call ends in is truthy, so the
    fallback texts of the pages are never shown for a failed call: the
    order alert and the booking alert show the message of the rejection
    whatever the translation fallback is. *)
Theorem rejection_message_truthy (adapter : nat -> Config.t -> Outcome)
    (config : Config.t) (w w' : World) (fuel : nat)
    (reason : Normalized.t) (translated : Js.value) :
  api adapter (S (S fuel)) config w = (Some (Rejected reason), w') ->
  Js.truthy (Normalized.message reason) = true /\
  Callers.orderAlert reason = Normalized.message reason /\
  Callers.bookingAlert translated reason = Normalized.message reason.
Proof.
  intros Hrun.
  assert (Ht : Js.truthy (Normalized.message reason) = true).
  { destruct (api_rejection _ _ _ _ _ _ Hrun)
      as [(error & _ & ->)|(response & ->)]; cbn; unfold Js.or_else.
    - destruct (Js.truthy (Js.Str (AxiosError.message error))) eqn:E;
        [exact E|reflexivity].
    - destruct (Js.truthy (Js.opt_member (Response.data response) "message"))
        eqn:E; [exact E|reflexivity]. }
  split; [exact Ht|].
  unfold Callers.orderAlert, Callers.bookingAlert, Js.or_else.
  rewrite Ht, Ht. split; reflexivity.
Qed.

Lemma rejection_message_truthy_witness :
  exists reason w',
    api (Scenario.answering 500 Js.Null) 2 Scenario.getDoctors
      (Scenario.page (Scenario.session "tok1") "/medicines")
      = (Some (Rejected reason), w') /\
    Callers.orderAlert reason = Js.Str "An error occurred".
Proof.
  eexists. eexists.
  assert (Hrun : api (Scenario.answering 500 Js.Null) 2 Scenario.getDoctors
                   (Scenario.page (Scenario.session "tok1") "/medicines")
                 = (Some (Rejected
                            (httpRejection
                               (Response.mk 500 Js.Null
                                  (outgoing
                                     (Scenario.page (Scenario.session "tok1")
                                        "/medicines")
                                     Scenario.getDoctors)))),
                    snd (api (Scenario.answering 500 Js.Null) 2
                           Scenario.getDoctors
                           (Scenario.page (Scenario.session "tok1")
                              "/medicines"))))
    by (vm_compute; reflexivity).
  split; [exact Hrun|].
  rewrite (proj1 (proj2 (rejection_message_truthy _ _ _ _ _ _ Js.Null Hrun))).
  reflexivity.
Defined.

(** X5: for the rejection of a call, the booking handler takes its offline
    branch exactly when the status is 0; the test of [code] against
    [ERR_NETWORK] never adds a case. *)
Theorem booking_offline_iff_status_0 (adapter : nat -> Config.t -> Outcome)
    (config : Config.t) (w w' : World) (fuel : nat) (reason : Normalized.t) :
  api adapter (S (S fuel)) config w = (Some (Rejected reason), w') ->
  Callers.bookingOffline reason = (Normalized.status reason =? 0)%Z.
Proof.
  intros Hrun.
  destruct (api_rejection _ _ _ _ _ _ Hrun)
    as [(error & _ & ->)|(response & ->)].
  - reflexivity.
  - unfold Callers.bookingOffline. cbn. apply orb_false_r.
Qed.

Lemma booking_offline_iff_status_0_witness :
  exists reason w',
    api Scenario.offline 2 Scenario.getDoctors
      (Scenario.page (Scenario.session "tok1") "/doctors")
      = (Some (Rejected reason), w') /\
    Callers.bookingOffline reason = true.
Proof.
  eexists. eexists.
  assert (Hrun : api Scenario.offline 2 Scenario.getDoctors
                   (Scenario.page (Scenario.session "tok1") "/doctors")
                 = (Some (Rejected
                            (networkRejection
                               (AxiosError.mk "timeout of 10000ms exceeded"
                                  (Some "ECONNABORTED")
                                  (Some (Config.set___isRetry true
                                           (outgoing
                                              (Scenario.page
                                                 (Scenario.session "tok1")
                                                 "/doctors")
                                              Scenario.getDoctors)))
                                  None))),
                    snd (api Scenario.offline 2 Scenario.getDoctors
                           (Scenario.page (Scenario.session "tok1")
                              "/doctors"))))
    by (vm_compute; reflexivity).
  split; [exact Hrun|].
  rewrite (booking_offline_iff_status_0 _ _ _ _ _ _ Hrun). reflexivity.
Defined.

(** X6: for the rejection of a call, the profile page sees a network
    error exactly when the status is 0 or the message is the string
    [Network Error]; the tests of [code] and of [originalError.code]
    never add a case, and a failure status answered with that message is
    taken for a network error. *)
Theorem profile_network_error (adapter : nat -> Config.t -> Outcome)
    (config : Config.t) (w w' : World) (fuel : nat) (reason : Normalized.t) :
  api adapter (S (S fuel)) config w = (Some (Rejected reason), w') ->
  Callers.isNetworkError reason =
    (Normalized.status reason =? 0)%Z
    || Callers.is_string (Normalized.message reason) "Network Error".
Proof.
  intros Hrun.
  destruct (api_rejection _ _ _ _ _ _ Hrun)
    as [(error & _ & ->)|(response & ->)].
  - reflexivity.
  - unfold Callers.isNetworkError. cbn.
    rewrite !orb_false_r. reflexivity.
Qed.

Lemma profile_network_error_witness :
  exists reason w',
    api (Scenario.answering 500
           (Js.Obj [("message", Js.Str "Network Error")])) 2
      Scenario.getProfile
      (Scenario.page (Scenario.session "tok1") "/profile")
      = (Some (Rejected reason), w') /\
    Normalized.status reason = 500%Z /\
    Callers.isNetworkError reason = true.
Proof.
  eexists. eexists.
  assert (Hrun : api (Scenario.answering 500
                        (Js.Obj [("message", Js.Str "Network Error")])) 2
                   Scenario.getProfile
                   (Scenario.page (Scenario.session "tok1") "/profile")
                 = (Some (Rejected
                            (httpRejection
                               (Response.mk 500
                                  (Js.Obj [("message", Js.Str "Network Error")])
                                  (outgoing
                                     (Scenario.page (Scenario.session "tok1")
                                        "/profile")
                                     Scenario.getProfile)))),
                    snd (api (Scenario.answering 500
                                (Js.Obj [("message", Js.Str "Network Error")]))
                           2 Scenario.getProfile
                           (Scenario.page (Scenario.session "tok1")
                              "/profile"))))
    by (vm_compute; reflexivity).
  split; [exact Hrun|]. split; [reflexivity|].
  rewrite (profile_network_error _ _ _ _ _ _ Hrun).
  reflexivity.
Defined.

(** ** The session store *)

Ltac storage := unfold Storage.clearStorage in *;
  unfold Storage.getToken, Storage.setToken, Storage.removeToken,
    Storage.getUserRole, Storage.setUserRole, Storage.removeUserRole,
    Storage.getUserDataRaw, Storage.setUserData, Storage.removeUserData in *;
  unfold Storage.getItem, Storage.setItem, Storage.removeItem in *.

(** X7: each of the three entries reads back what was last written to it
    and reads [null] after its removal, on every store; and each of the
    six writes ([setToken], [removeToken], [setUserRole],
    [removeUserRole], [setUserData], [removeUserData]) leaves the
    reading of the other two entries as it was. *)
Theorem storage_round_trip (ls : gmap string string)
    (token role json : string) :
  (Storage.getToken (Storage.setToken token ls) = Some token /\
   Storage.getUserRole (Storage.setUserRole role ls) = Some role /\
   Storage.getUserDataRaw (Storage.setUserData json ls) = Some json) /\
  (Storage.getToken (Storage.removeToken ls) = None /\
   Storage.getUserRole (Storage.removeUserRole ls) = None /\
   Storage.getUserDataRaw (Storage.removeUserData ls) = None) /\
  (Storage.getUserRole (Storage.setToken token ls) = Storage.getUserRole ls /\
   Storage.getUserDataRaw (Storage.setToken token ls)
     = Storage.getUserDataRaw ls /\
   Storage.getUserRole (Storage.removeToken ls) = Storage.getUserRole ls /\
   Storage.getUserDataRaw (Storage.removeToken ls)
     = Storage.getUserDataRaw ls) /\
  (Storage.getToken (Storage.setUserRole role ls) = Storage.getToken ls /\
   Storage.getUserDataRaw (Storage.setUserRole role ls)
     = Storage.getUserDataRaw ls /\
   Storage.getToken (Storage.removeUserRole ls) = Storage.getToken ls /\
   Storage.getUserDataRaw (Storage.removeUserRole ls)
     = Storage.getUserDataRaw ls) /\
  (Storage.getToken (Storage.setUserData json ls) = Storage.getToken ls /\
   Storage.getUserRole (Storage.setUserData json ls)
     = Storage.getUserRole ls /\
   Storage.getToken (Storage.removeUserData ls) = Storage.getToken ls /\
   Storage.getUserRole (Storage.removeUserData ls) = Storage.getUserRole ls).
Proof.
  storage. repeat split;
    first [ apply lookup_insert_eq
          | apply lookup_delete_eq
          | by rewrite lookup_insert_ne
          | by rewrite lookup_delete_ne ].
Qed.



(** ** The request interceptor *)

(** X9: every attempt a call dispatches carries an [Accept-Language]
    header, whatever the caller put there: the persisted language when
    that is a non-empty string, [en] when none is persisted or the empty
    string is. *)
Theorem language_header (adapter : nat -> Config.t -> Outcome)
    (config : Config.t) (w : World) (fuel : nat) :
  let sent := outgoing w config in
  (forall language,
      Storage.getItem "mediconnect_language" (localStorage w) = Some language ->
      language ≠ "" ->
      Config.headers sent !! "Accept-Language" = Some language) /\
  (Storage.getItem "mediconnect_language" (localStorage w) = None \/
   Storage.getItem "mediconnect_language" (localStorage w) = Some "" ->
      Config.headers sent !! "Accept-Language" = Some "en") /\
  exists rest,
    dispatched (events (snd (api adapter (S fuel) config w)))
      = rest ++ sent :: dispatched (events w) /\
    forall c, c ∈ rest ->
      Config.headers c !! "Accept-Language"
        = Config.headers sent !! "Accept-Language".
Proof.
  intros sent.
  assert (Hh : Config.headers sent !! "Accept-Language" =
               Some match Storage.getItem "mediconnect_language"
                            (localStorage w) with
                    | Some l => if Js.truthy (Js.Str l) then l else "en"
                    | None => "en"
                    end).
  { unfold sent. rewrite outgoing_headers. unfold stamp.
    apply lookup_insert_eq. }
  split; [|split].
  - intros l Hl Hne. rewrite Hh, Hl. destruct l; done.
  - intros [Hl|Hl]; rewrite Hh, Hl; reflexivity.
  - destruct (api_dispatched adapter fuel config w) as (rest & Hd & Hrest).
    exists rest. split; [exact Hd|].
    intros c Hc. destruct Hrest as [->| ->].
    + apply elem_of_nil in Hc. destruct Hc.
    + apply list_elem_of_singleton in Hc. subst c. reflexivity.
Qed.

Lemma language_header_witness :
  Config.headers
    (outgoing
       (Scenario.page
          (Storage.setItem "mediconnect_language" "hi" (Scenario.session "t"))
          "/") Scenario.getDoctors) !! "Accept-Language" = Some "hi" /\
  Config.headers (outgoing (Scenario.page ∅ "/") Scenario.getDoctors)
    !! "Accept-Language" = Some "en".
Proof.
  split.
  - apply (language_header Scenario.offline Scenario.getDoctors
             (Scenario.page
                (Storage.setItem "mediconnect_language" "hi"
                   (Scenario.session "t")) "/") 1).
    + reflexivity.
    + discriminate.
  - apply (proj1 (proj2 (language_header Scenario.offline Scenario.getDoctors
                           (Scenario.page ∅ "/") 1))).
    left. reflexivity.
Defined.

(** X10: the request interceptor changes nothing but the two headers: the
    world, the url, the method, the base URL, the body, the timeout and
    the flag of the config are those it was given, and so is every header
    other than [Authorization] and [Accept-Language]. *)
Theorem interceptor_frame (config : Config.t) (w : World) (key : string) :
  key ≠ "Authorization" ->
  key ≠ "Accept-Language" ->
  let config' := fst (requestFulfilled config w) in
  snd (requestFulfilled config w) = w /\
  Config.headers config' !! key = Config.headers config !! key /\
  Config.url config' = Config.url config /\
  Config.method config' = Config.method config /\
  Config.baseURL config' = Config.baseURL config /\
  Config.data config' = Config.data config /\
  Config.timeout config' = Config.timeout config /\
  Config.__isRetry config' = Config.__isRetry config.
Proof.
  intros Ha Hl. unfold requestFulfilled. run. cbn.
  destruct (Storage.getToken (localStorage w)) as [[|a token]|]; cbn;
    repeat split; try reflexivity;
    rewrite ?lookup_insert_ne by congruence; reflexivity.
Qed.

Lemma interceptor_frame_witness :
  Config.headers
    (fst (requestFulfilled
            (Config.set_headers {[ "Content-Type" := "multipart/form-data" ]}
               Scenario.getDoctors)
            (Scenario.page (Scenario.session "tok1") "/records")))
    !! "Content-Type" = Some "multipart/form-data".
Proof.
  rewrite (proj1 (proj2 (interceptor_frame
             (Config.set_headers {[ "Content-Type" := "multipart/form-data" ]}
                Scenario.getDoctors)
             (Scenario.page (Scenario.session "tok1") "/records")
             "Content-Type" ltac:(discriminate) ltac:(discriminate)))).
  reflexivity.
Defined.

(** ** The auth context *)

Lemma outgoing_authorization w config :
  Config.headers (outgoing w config) !! "Authorization" =
    match Storage.getToken (localStorage w) with
    | Some token =>
        if Js.truthy (Js.Str token) then Some ("Bearer " +:+ token)
        else (Config.headers config ∪ Defaults.headers (defaults w))
               !! "Authorization"
    | None =>
        (Config.headers config ∪ Defaults.headers (defaults w))
          !! "Authorization"
    end.
Proof. rewrite outgoing_headers. apply stamp_authorization. Qed.

Lemma logout_storage (s : Auth.State) :
  localStorage (Auth.world (Auth.logout s))
    = Storage.clearStorage (localStorage (Auth.world s)).
Proof.
  unfold Auth.logout, Auth.setStorage, Auth.setDefaultHeaders. cbn.
  storage. apply map_eq. intros k. rewrite !lookup_delete.
  repeat case_decide; reflexivity.
Qed.

Lemma logout_facts (s : Auth.State) :
  localStorage (Auth.world (Auth.logout s))
    = Storage.clearStorage (localStorage (Auth.world s)) /\
  Storage.getToken (localStorage (Auth.world (Auth.logout s))) = None /\
  Defaults.headers (defaults (Auth.world (Auth.logout s)))
    !! "Authorization" = None /\
  Auth.user (Auth.logout s) = None /\
  Auth.routes (Auth.logout s) = "/login" :: Auth.routes s /\
  Auth.loading (Auth.logout s) = Auth.loading s.
Proof.
  assert (Hls := logout_storage s).
  split; [exact Hls|]. split.
  { rewrite Hls. apply clearStorage_lookup. }
  split.
  { unfold Auth.logout, Auth.setStorage, Auth.setDefaultHeaders. cbn.
    apply lookup_delete_eq. }
  repeat split; reflexivity.
Qed.

(** X11: [logout] ends the session on every state: the store is left as
    [clearStorage] leaves it, the default [Authorization] header of the
    instance is gone, the user state is [null], [/login] is handed to
    [navigate] whatever the current path, and a request made afterwards
    carries no [Authorization] header but the one its caller gave it. *)
Theorem logout_ends_session (s : Auth.State) (config : Config.t) :
  let s' := Auth.logout s in
  localStorage (Auth.world s')
    = Storage.clearStorage (localStorage (Auth.world s)) /\
  Storage.getToken (localStorage (Auth.world s')) = None /\
  Defaults.headers (defaults (Auth.world s')) !! "Authorization" = None /\
  Auth.user s' = None /\
  Auth.routes s' = "/login" :: Auth.routes s /\
  Config.headers (outgoing (Auth.world s') config) !! "Authorization"
    = Config.headers config !! "Authorization".
Proof.
  intros s'.
  destruct (logout_facts s) as (Hls & Htok & Hdef & Hu & Hr & _).
  fold s' in Hls, Htok, Hdef, Hu, Hr.
  split; [exact Hls|]. split; [exact Htok|]. split; [exact Hdef|].
  split; [exact Hu|]. split; [exact Hr|].
  rewrite outgoing_authorization, Htok. apply lookup_union_l. exact Hdef.
Qed.

Lemma login_world stringify tokenTime idTime email password role s :
  let s' := snd (Auth.login stringify tokenTime idTime email password role s) in
  let token := "mock-jwt-token-for-demo-" +:+ pretty tokenTime in
  Storage.getToken (localStorage (Auth.world s')) = Some token /\
  Storage.getUserRole (localStorage (Auth.world s')) = Some role /\
  Defaults.headers (defaults (Auth.world s')) !! "Authorization"
    = Some ("Bearer " +:+ token) /\
  pathname (Auth.world s') = pathname (Auth.world s) /\
  events (Auth.world s') = events (Auth.world s).
Proof.
  unfold Auth.login, Auth.setAuthorization, Auth.setStorage,
    Auth.setDefaultHeaders. cbn [snd Auth.world localStorage defaults
    Defaults.headers pathname events].
  storage. repeat split.
  - rewrite !lookup_insert_ne by done. apply lookup_insert_eq.
  - rewrite !lookup_insert_ne by done. apply lookup_insert_eq.
  - apply lookup_insert_eq.
Qed.

(** X12: after [login], whatever the email, the password and the role, the
    token [mock-jwt-token-for-demo-<time>] is persisted together with the
    role, the instance defaults carry it as a bearer token, and every
    request made afterwards is dispatched with it in its [Authorization]
    header, also when the caller supplies another one. *)
Theorem login_authorizes_requests (stringify : Js.value -> string)
    (tokenTime idTime : Z) (email password role : string)
    (s : Auth.State) (config : Config.t) :
  let result := Auth.login stringify tokenTime idTime email password role s in
  let token := "mock-jwt-token-for-demo-" +:+ pretty tokenTime in
  fst result = true /\
  Storage.getToken (localStorage (Auth.world (snd result))) = Some token /\
  Storage.getUserRole (localStorage (Auth.world (snd result))) = Some role /\
  Defaults.headers (defaults (Auth.world (snd result))) !! "Authorization"
    = Some ("Bearer " +:+ token) /\
  Config.headers (outgoing (Auth.world (snd result)) config)
    !! "Authorization" = Some ("Bearer " +:+ token).
Proof.
  intros result token.
  destruct (login_world stringify tokenTime idTime email password role s)
    as (Ht & Hr & Hd & _).
  split; [reflexivity|]. split; [exact Ht|]. split; [exact Hr|].
  split; [exact Hd|].
  rewrite outgoing_authorization. unfold result. cbn zeta in Ht.
  rewrite Ht. reflexivity.
Qed.



Lemma beforeAt_split (email : string) :
  exists rest,
    email = Auth.beforeAt email +:+ rest /\
    ~ In "@"%char (String.list_ascii_of_string (Auth.beforeAt email)) /\
    (rest = "" \/ exists r, rest = String "@"%char r).
Proof.
  induction email as [|c email (rest & Heq & Hno & Hrest)]; cbn.
  - exists "". split; [reflexivity|]. split; [tauto|left; reflexivity].
  - destruct (Ascii.eqb_spec c "@"%char) as [->|Hc].
    + exists (String "@"%char email). cbn.
      split; [reflexivity|]. split; [tauto|right; eauto].
    + exists rest. cbn. split; [|split; [|exact Hrest]].
      * change (String c email = String c (Auth.beforeAt email +:+ rest)).
        f_equal. exact Heq.
      * intros [E|E]; [congruence|exact (Hno E)].
Qed.

(** X14: the display name [login] gives the user is the part of the email
    before its first [@]: a prefix of the email without any [@] in it,
    followed in the email by nothing or by an [@]. *)
Theorem login_display_name (stringify : Js.value -> string)
    (tokenTime idTime : Z) (email password role : string) (s : Auth.State) :
  exists u n rest,
    Auth.user (snd (Auth.login stringify tokenTime idTime email password
                      role s)) = Some u /\
    Auth.name u = Js.Str n /\
    Auth.email u = Js.Str email /\
    email = n +:+ rest /\
    ~ In "@"%char (String.list_ascii_of_string n) /\
    (rest = "" \/ exists r, rest = String "@"%char r).
Proof.
  destruct (beforeAt_split email) as (rest & Heq & Hno & Hrest).
  eexists. exists (Auth.beforeAt email), rest.
  split; [reflexivity|]. cbn. repeat split; assumption.
Qed.

(** X15: the 401 branch clears the store but not the instance defaults: when
    the defaults carry an [Authorization] header (as [login] and
    [checkAuth] leave them), then in the world the rejection of a 401 is
    delivered in no token is persisted any more, and yet a request whose
    caller gives no [Authorization] header is dispatched with the header
    of the defaults. *)
Theorem unauthorized_keeps_default_header
    (adapter : nat -> Config.t -> Outcome) (config next : Config.t)
    (w : World) (fuel : nat) (body : Js.value) (bearer : string) :
  Defaults.headers (defaults w) !! "Authorization" = Some bearer ->
  adapter (attempts w) (outgoing w config) = Answered 401 body ->
  Config.headers next !! "Authorization" = None ->
  let w' := snd (api adapter (S fuel) config w) in
  Storage.getToken (localStorage w') = None /\
  Config.headers (outgoing w' next) !! "Authorization" = Some bearer.
Proof.
  intros Hdef Ha Hnext w'.
  assert (Hw : localStorage w' = Storage.clearStorage (localStorage w) /\
               defaults w' = defaults w).
  { unfold w'. rewrite api_step. cbn zeta. rewrite Ha.
    change (validateStatus 401) with false. cbv iota.
    rewrite onStatus_401 by reflexivity. cbn [snd].
    case_bool_decide; split; reflexivity. }
  destruct Hw as [Hls Hd].
  assert (Htok : Storage.getToken (localStorage w') = None).
  { rewrite Hls. apply clearStorage_lookup. }
  split; [exact Htok|].
  rewrite outgoing_authorization, Htok, Hd.
  rewrite lookup_union_r by exact Hnext. exact Hdef.
Qed.

Lemma unauthorized_keeps_default_header_witness :
  let s :=
    snd (Auth.login (fun _ => "{}") 1700000000000 1700000000001
           "asha@example.org" "secret" "admin"
           (Auth.mkState (Scenario.page ∅ "/login") None false [])) in
  let w' :=
    snd (api (Scenario.answering 401 Scenario.jwtExpired) 2
           Scenario.getProfile (Auth.world s)) in
  Storage.getToken (localStorage w') = None /\
  Config.headers (outgoing w' Scenario.getDoctors) !! "Authorization"
    = Some "Bearer mock-jwt-token-for-demo-1700000000000".
Proof.
  cbn zeta.
  apply (unauthorized_keeps_default_header
           (Scenario.answering 401 Scenario.jwtExpired)
           Scenario.getProfile Scenario.getDoctors
           (Auth.world
              (snd (Auth.login (fun _ => "{}") 1700000000000 1700000000001
                      "asha@example.org" "secret" "admin"
                      (Auth.mkState (Scenario.page ∅ "/login") None false []))))
           1 Scenario.jwtExpired
           "Bearer mock-jwt-token-for-demo-1700000000000").
  - vm_compute. reflexivity.
  - reflexivity.
  - reflexivity.
Defined.

(** ** [checkAuth] *)

Section CheckAuth.

Variable jwtDecode : string -> option Js.value.
Variable parse : string -> option Js.value.

(** X16: with a non-empty token persisted and stored user data that parses
    to a truthy value, [checkAuth] authenticates whatever [jwtDecode]
    does with the token: it returns with [loading] off and a user set,
    the instance defaults carry the token as a bearer token, and the
    store and the routes are untouched. *)
Theorem checkAuth_recovers_with_user_data (s : Auth.State)
    (token : string) (stored : Js.value) :
  Storage.getToken (localStorage (Auth.world s)) = Some token ->
  token ≠ "" ->
  Auth.getUserData parse (localStorage (Auth.world s)) = Some stored ->
  Js.truthy stored = true ->
  exists s',
    Auth.checkAuth jwtDecode parse s = (Auth.Returned, s') /\
    Auth.loading s' = false /\
    is_Some (Auth.user s') /\
    Defaults.headers (defaults (Auth.world s')) !! "Authorization"
      = Some ("Bearer " +:+ token) /\
    localStorage (Auth.world s') = localStorage (Auth.world s) /\
    Auth.routes s' = Auth.routes s.
Proof.
  intros Htok Hne Hdata Htruthy. unfold Auth.checkAuth. rewrite Htok.
  assert (Ht : Js.truthy (Js.Str token) = true) by (destruct token; done).
  rewrite Ht.
  destruct (Auth.checkAuthTry jwtDecode parse token s) as [s1|] eqn:Htry.
  - unfold Auth.checkAuthTry in Htry. rewrite Hdata in Htry.
    destruct (jwtDecode token) as [decoded|]; [|discriminate].
    cbn in Htry.
    eexists. split; [reflexivity|].
    destruct decoded; try discriminate; injection Htry as <-; cbn;
      (split; [reflexivity|]); (split; [by eexists|]);
      (split; [apply lookup_insert_eq|]); split; reflexivity.
  - unfold Auth.checkAuthCatch.
    change (localStorage (Auth.world (Auth.warned s)))
      with (localStorage (Auth.world s)).
    rewrite Hdata. cbn [mbind option_bind]. rewrite Htruthy.
    eexists. split; [reflexivity|]. cbn.
    split; [reflexivity|]. split; [by eexists|].
    split; [apply lookup_insert_eq|]. split; reflexivity.
Qed.

(** X17: with a non-empty token that [jwtDecode] rejects and no usable user
    data (none stored, the empty string, or JSON for a falsy value),
    [checkAuth] logs out: it returns with [loading] off, the store is
    cleared of the session, the default [Authorization] header is gone,
    the user is [null] and [/login] is handed to [navigate]. *)
Theorem checkAuth_logs_out (s : Auth.State) (token : string)
    (stored : Js.value) :
  Storage.getToken (localStorage (Auth.world s)) = Some token ->
  token ≠ "" ->
  jwtDecode token = None ->
  Auth.getUserData parse (localStorage (Auth.world s)) = Some stored ->
  Js.truthy stored = false ->
  exists s',
    Auth.checkAuth jwtDecode parse s = (Auth.Returned, s') /\
    Auth.loading s' = false /\
    Auth.user s' = None /\
    localStorage (Auth.world s')
      = Storage.clearStorage (localStorage (Auth.world s)) /\
    Defaults.headers (defaults (Auth.world s')) !! "Authorization" = None /\
    Auth.routes s' = "/login" :: Auth.routes s.
Proof.
  intros Htok Hne Hdec Hdata Hfalsy. unfold Auth.checkAuth. rewrite Htok.
  assert (Ht : Js.truthy (Js.Str token) = true) by (destruct token; done).
  rewrite Ht. unfold Auth.checkAuthTry. rewrite Hdec. cbn [mbind option_bind].
  unfold Auth.checkAuthCatch.
  change (localStorage (Auth.world (Auth.warned s)))
    with (localStorage (Auth.world s)).
  rewrite Hdata. cbn [mbind option_bind]. rewrite Hfalsy.
  eexists. split; [reflexivity|].
  destruct (logout_facts (Auth.warned s)) as (Hls & _ & Hd & Hu & Hr & _).
  cbn [Auth.setLoading Auth.loading Auth.user Auth.world Auth.routes].
  split; [reflexivity|]. split; [exact Hu|]. split; [exact Hls|].
  split; [exact Hd|exact Hr].
Qed.

(** X18: with a non-empty token persisted and stored user data that
    [JSON.parse] rejects, [checkAuth] throws out of its [catch] block
    whatever [jwtDecode] does: [loading] is never turned off, and the
    store, the instance defaults, the user and the routes are as
    before. *)
Theorem checkAuth_throws_on_malformed_user_data (s : Auth.State)
    (token data : string) :
  Storage.getToken (localStorage (Auth.world s)) = Some token ->
  token ≠ "" ->
  Storage.getUserDataRaw (localStorage (Auth.world s)) = Some data ->
  data ≠ "" ->
  parse data = None ->
  exists s',
    Auth.checkAuth jwtDecode parse s = (Auth.Threw, s') /\
    Auth.loading s' = Auth.loading s /\
    Auth.user s' = Auth.user s /\
    Auth.routes s' = Auth.routes s /\
    localStorage (Auth.world s') = localStorage (Auth.world s) /\
    defaults (Auth.world s') = defaults (Auth.world s).
Proof.
  intros Htok Hne Hraw Hdne Hparse.
  assert (Hdata : Auth.getUserData parse (localStorage (Auth.world s)) = None).
  { unfold Auth.getUserData. unfold Storage.getUserDataRaw in Hraw.
    rewrite Hraw. destruct data; [done|]. exact Hparse. }
  unfold Auth.checkAuth. rewrite Htok.
  assert (Ht : Js.truthy (Js.Str token) = true) by (destruct token; done).
  rewrite Ht.
  assert (Htry : Auth.checkAuthTry jwtDecode parse token s = None).
  { unfold Auth.checkAuthTry. rewrite Hdata.
    destruct (jwtDecode token); reflexivity. }
  rewrite Htry. unfold Auth.checkAuthCatch.
  change (localStorage (Auth.world (Auth.warned s)))
    with (localStorage (Auth.world s)).
  rewrite Hdata. cbn [mbind option_bind].
  eexists. split; [reflexivity|]. repeat split; reflexivity.
Qed.

End CheckAuth.

Lemma checkAuth_recovers_with_user_data_witness :
  let s :=
    snd (Auth.login (fun _ => "{}") 1700000000000 1700000000001
           "asha@example.org" "secret" "patient"
           (Auth.mkState (Scenario.page ∅ "/login") None true [])) in
  exists s',
    Auth.checkAuth (fun _ => None)
      (fun d => if String.eqb d "{}" then Some (Js.Obj []) else None) s
      = (Auth.Returned, s') /\
    Auth.loading s' = false /\
    Defaults.headers (defaults (Auth.world s')) !! "Authorization"
      = Some "Bearer mock-jwt-token-for-demo-1700000000000".
Proof.
  cbn zeta.
  destruct (checkAuth_recovers_with_user_data (fun _ => None)
              (fun d => if String.eqb d "{}" then Some (Js.Obj []) else None)
              (snd (Auth.login (fun _ => "{}") 1700000000000 1700000000001
                      "asha@example.org" "secret" "patient"
                      (Auth.mkState (Scenario.page ∅ "/login") None true [])))
              "mock-jwt-token-for-demo-1700000000000" (Js.Obj []))
    as (s' & Hrun & Hl & _ & Hd & _).
  - vm_compute. reflexivity.
  - discriminate.
  - vm_compute. reflexivity.
  - reflexivity.
  - exists s'. split; [exact Hrun|]. split; [exact Hl|exact Hd].
Defined.

Lemma checkAuth_logs_out_witness :
  exists s',
    Auth.checkAuth (fun _ => None) (fun _ => None)
      (Auth.mkState
         (Scenario.page (Storage.setToken "not-a-jwt" ∅) "/patient-dashboard")
         None true [])
      = (Auth.Returned, s') /\
    Storage.getToken (localStorage (Auth.world s')) = None /\
    Auth.routes s' = ["/login"].
Proof.
  destruct (checkAuth_logs_out (fun _ => None) (fun _ => None)
              (Auth.mkState
                 (Scenario.page (Storage.setToken "not-a-jwt" ∅)
                    "/patient-dashboard") None true [])
              "not-a-jwt" Js.Null)
    as (s' & Hrun & _ & _ & Hls & _ & Hr).
  - reflexivity.
  - discriminate.
  - reflexivity.
  - reflexivity.
  - reflexivity.
  - exists s'. split; [exact Hrun|]. split; [|exact Hr].
    rewrite Hls. apply clearStorage_lookup.
Defined.

Lemma checkAuth_throws_on_malformed_user_data_witness :
  exists s',
    Auth.checkAuth (fun _ => Some (Js.Obj [("sub", Js.Str "u1")]))
      (fun _ => None)
      (Auth.mkState
         (Scenario.page
            (Storage.setUserData "{oops" (Storage.setToken "a.b.c" ∅))
            "/patient-dashboard")
         None true [])
      = (Auth.Threw, s') /\
    Auth.loading s' = true.
Proof.
  destruct (checkAuth_throws_on_malformed_user_data
              (fun _ => Some (Js.Obj [("sub", Js.Str "u1")]))
              (fun _ => None)
              (Auth.mkState
                 (Scenario.page
                    (Storage.setUserData "{oops" (Storage.setToken "a.b.c" ∅))
                    "/patient-dashboard")
                 None true [])
              "a.b.c" "{oops")
    as (s' & Hrun & Hl & _).
  - reflexivity.
  - discriminate.
  - reflexivity.
  - discriminate.
  - reflexivity.
  - exists s'. split; [exact Hrun|exact Hl].
Defined.
